(** * The wizard layout of [awscli/customizations/wizard/ui/layout.py]

    A shallow embedding of the layout factory, the details panel, the
    button factory and the "run wizard" dialog, followed by the properties
    of the specification that concern them.

    Conventions of the embedding:
    - plan definitions are the values a YAML document loads to ([pyval]:
      null, booleans, integers, strings, sequences and mappings);
      mappings are association lists, because the order of the plan is
      observable; keys are strings, and a lookup finds the first binding
      of a key (a Python mapping binds a key once);
    - a Python exception is a [Raise e] result;
    - every [Button] owns a [Window], an object with an identity.  Object
      identities are drawn from a counter that construction threads through
      (the [Alloc] monad);
    - the widgets of [prompt_toolkit] are constructors of a tree, of which
      only the fields that the code sets and that matter to behaviour are
      kept (children, key bindings, filters, titles); padding, styles and
      dimensions are left out. *)

From Stdlib Require Import String Ascii List ZArith Bool Arith Lia.
Import ListNotations.
Open Scope string_scope.
Set Warnings "-register-all".

(* ================================================================== *)
(** ** Python values and exceptions *)

Inductive pyval : Type :=
| PNone
| PBool (b : bool)
| PInt (z : Z)
| PStr (s : string)
| PList (items : list pyval)
| PDict (kvs : list (string * pyval)).

Inductive PyError : Type :=
| AttributeError
| KeyError
| TypeError
| IndexError.

Inductive result (A : Type) : Type :=
| Ok (a : A)
| Raise (e : PyError).

Arguments Ok {A} a.
Arguments Raise {A} e.

Definition rbind {A B : Type} (r : result A) (k : A -> result B) : result B :=
  match r with
  | Ok a => k a
  | Raise e => Raise e
  end.

Module Py.

(** [bool(v)] *)
Definition truthy (v : pyval) : bool :=
  match v with
  | PNone => false
  | PBool b => b
  | PInt z => negb (Z.eqb z 0)
  | PStr s => negb (String.eqb s "")
  | PList items => match items with [] => false | _ :: _ => true end
  | PDict kvs => match kvs with [] => false | _ :: _ => true end
  end.

(** First binding of [k] in a mapping. *)
Fixpoint lookup (k : string) (kvs : list (string * pyval)) : option pyval :=
  match kvs with
  | [] => None
  | (k', v) :: rest => if String.eqb k k' then Some v else lookup k rest
  end.

(** [needle in hay] on two strings: substring test. *)
Fixpoint is_substring (needle hay : string) : bool :=
  String.prefix needle hay ||
  match hay with
  | EmptyString => false
  | String _ hay' => is_substring needle hay'
  end.

(** [v == k] for a string [k]: only an equal string compares equal. *)
Definition eq_str (k : string) (v : pyval) : bool :=
  match v with
  | PStr s => String.eqb k s
  | _ => false
  end.

(** [k in v] for a string [k]. *)
Definition contains (k : string) (v : pyval) : result bool :=
  match v with
  | PDict kvs => Ok (match lookup k kvs with Some _ => true | None => false end)
  | PList items => Ok (existsb (eq_str k) items)
  | PStr s => Ok (is_substring k s)
  | PNone | PBool _ | PInt _ => Raise TypeError
  end.

(** [v[k]] for a string [k]. *)
Definition getitem (v : pyval) (k : string) : result pyval :=
  match v with
  | PDict kvs =>
      match lookup k kvs with
      | Some x => Ok x
      | None => Raise KeyError
      end
  | _ => Raise TypeError
  end.

(** [d.get(k)] on a mapping: the value, or [None]. *)
Definition dict_get (kvs : list (string * pyval)) (k : string) : pyval :=
  match lookup k kvs with
  | Some x => x
  | None => PNone
  end.

(** [v.items()]: only a mapping has the method. *)
Definition items (v : pyval) : result (list (string * pyval)) :=
  match v with
  | PDict kvs => Ok kvs
  | _ => Raise AttributeError
  end.

(** The elements that [for x in v] visits, in order. *)
Definition iter (v : pyval) : result (list pyval) :=
  match v with
  | PList items => Ok items
  | PDict kvs => Ok (map (fun kv => PStr (fst kv)) kvs)
  | PStr s => Ok (map (fun c => PStr (String c EmptyString))
                      (list_ascii_of_string s))
  | PNone | PBool _ | PInt _ => Raise TypeError
  end.

(** [getattr(obj, name, default)] on an attribute that is unset ([None])
    or set to a string. *)
Definition getattr_default (attr : option string) (default : string) : string :=
  match attr with
  | Some s => s
  | None => default
  end.

(** [a or b] on strings. *)
Definition or_str (a b : string) : string :=
  if String.eqb a "" then b else a.

End Py.

(* ================================================================== *)
(** ** Construction with object allocation *)

(** A computation that may allocate objects (the counter is the next free
    identity) and may raise. *)
Definition Alloc (A : Type) : Type := nat -> result (A * nat).

Definition ret {A : Type} (a : A) : Alloc A := fun n => Ok (a, n).

Definition raise {A : Type} (e : PyError) : Alloc A := fun _ => Raise e.

Definition bind {A B : Type} (c : Alloc A) (k : A -> Alloc B) : Alloc B :=
  fun n =>
    match c n with
    | Ok (a, n') => k a n'
    | Raise e => Raise e
    end.

Definition lift {A : Type} (r : result A) : Alloc A :=
  fun n =>
    match r with
    | Ok a => Ok (a, n)
    | Raise e => Raise e
    end.

Definition fresh : Alloc nat := fun n => Ok (n, S n).

Declare Scope alloc_scope.
Delimit Scope alloc_scope with alloc.
Notation "x <- c ;; k" := (bind c (fun x => k))
  (at level 61, c at next level, right associativity) : alloc_scope.

(** The body of a [for] loop that appends one element per item. *)
Fixpoint for_each {A B : Type} (f : A -> Alloc B) (xs : list A) : Alloc (list B) :=
  match xs with
  | [] => ret []
  | x :: xs' =>
      (b <- f x ;;
       bs <- for_each f xs' ;;
       ret (b :: bs))%alloc
  end.

(* ================================================================== *)
(** ** The widgets of prompt_toolkit that the layout uses *)

(** The two closures that the button factory installs as handlers. *)
Inductive Handler : Type :=
| yes_handler
| back_handler.

(** [Button(text=..., handler=...)]; [window] is the identity of the
    button's [Window]. *)
Record Button : Type := mkButton {
  text : pyval;
  handler : Handler;
  window : nat;
  always_hide_cursor : bool
}.

(** [button.window.always_hide_cursor = v] *)
Definition set_always_hide_cursor (button : Button) (v : bool) : Button :=
  {| text := button.(text); handler := button.(handler);
     window := button.(window); always_hide_cursor := v |}.

Definition new_Button (text : pyval) (handler : Handler) : Alloc Button :=
  (w <- fresh ;;
   ret {| text := text; handler := handler; window := w;
          always_hide_cursor := false |})%alloc.

Inductive Keys : Type :=
| Left
| Right
| Tab
| BackTab.

(** The filters that the layout uses: [has_focus(button)] and [~f] of
    prompt_toolkit, [Condition(self._is_visible)] of the dialog, and the
    two conditions imported from the wizard's key bindings. *)
Inductive Filter : Type :=
| has_focus (w : nat)
| Invert (f : Filter)
| Condition_is_visible
| details_visible
| prompt_has_details.

(** [prompt_toolkit.key_binding.bindings.focus] *)
Inductive FocusHandler : Type :=
| focus_next
| focus_previous.

Record Binding : Type := mkBinding {
  key : Keys;
  filter : option Filter;
  action : FocusHandler
}.

Definition KeyBindings : Type := list Binding.

(** [kb.add(key, filter=f)(h)]; without [filter] the binding is always
    active. *)
Definition kb_add (kb : KeyBindings) (k : Keys) (f : option Filter)
    (h : FocusHandler) : KeyBindings :=
  (kb ++ [ {| key := k; filter := f; action := h |} ])%list.

(** Containers, over the type [W] of the widgets at the leaves. *)
Inductive Container (W : Type) : Type :=
| Widget (w : W)
| HSplit (children : list (Container W))
| VSplit (children : list (Container W)) (key_bindings : option KeyBindings)
| Box (body : Container W)
| Shadow (body : Container W)
| Frame (title : pyval) (body : Container W)
| ConditionalContainer (content : Container W) (filter : Filter).

Arguments Widget {W} w.
Arguments HSplit {W} children.
Arguments VSplit {W} children key_bindings.
Arguments Box {W} body.
Arguments Shadow {W} body.
Arguments Frame {W} title body.
Arguments ConditionalContainer {W} content filter.

(* ================================================================== *)
(** ** class RunWizardDialogButtonFactory *)

Module RunWizardDialogButtonFactory.

Definition _create_dialog_button (text : pyval) (handler : Handler)
  : Alloc Button :=
  (button <- new_Button text handler ;;
   ret (set_always_hide_cursor button true))%alloc.

(** [text] is [None] when the keyword is not passed. *)
Definition _create_yes_button (text : option pyval) : Alloc Button :=
  _create_dialog_button
    (match text with Some t => t | None => PStr "Yes" end) yes_handler.

Definition _create_back_button (text : option pyval) : Alloc Button :=
  _create_dialog_button
    (match text with Some t => t | None => PStr "Back" end) back_handler.

(** The methods of the class, as [getattr] finds them by name.  The
    attributes inherited from [object] all start with two underscores. *)
Inductive Method : Type :=
| m_create_button
| m_create_yes_button
| m_create_back_button
| m_create_dialog_button.

Definition attributes : list (string * Method) :=
  [ ("create_button", m_create_button);
    ("_create_yes_button", m_create_yes_button);
    ("_create_back_button", m_create_back_button);
    ("_create_dialog_button", m_create_dialog_button) ].

Fixpoint find_attribute (name : string) (attrs : list (string * Method))
  : option Method :=
  match attrs with
  | [] => None
  | (a, m) :: rest =>
      if String.eqb name a then Some m else find_attribute name rest
  end.

(** [getattr(self, name)] *)
Definition getattr (name : string) : result Method :=
  match find_attribute name attributes with
  | Some m => Ok m
  | None => Raise AttributeError
  end.

(** [getattr(self, f'_create_{button_name}_button')].  A [button_name]
    that is not a string is formatted by [str]: "None", "True", "False",
    a decimal numeral, or a bracketed display that starts with "[" or
    "{"; none of these completes the name of an attribute of the class,
    so the lookup raises. *)
Definition getattr_builder (button_name : pyval) : result Method :=
  match button_name with
  | PStr name => getattr ("_create_" ++ name ++ "_button")
  | _ => Raise AttributeError
  end.

(** The call of the method found, with the keywords of [button_kwargs],
    which holds at most [text]. *)
Definition call (m : Method) (button_kwargs : option pyval) : Alloc Button :=
  match m with
  | m_create_yes_button => _create_yes_button button_kwargs
  | m_create_back_button => _create_back_button button_kwargs
  | m_create_dialog_button => raise TypeError (* [handler] is missing *)
  | m_create_button => raise TypeError (* [button_name] is missing *)
  end.

Definition create_button (button_name : pyval) (text : pyval) : Alloc Button :=
  let button_kwargs := if Py.truthy text then Some text else None in
  (m <- lift (getattr_builder button_name) ;;
   call m button_kwargs)%alloc.

End RunWizardDialogButtonFactory.

(* ================================================================== *)
(** ** class RunWizardDialog *)

Module RunWizardDialog.

Import RunWizardDialogButtonFactory.

Definition _DEFAULT_BUTTONS : list string := ["yes"; "back"].

Record t : Type := mk {
  _title : pyval;
  _buttons : list Button;
  container : Container Button
}.

(** [buttons[0]] and [buttons[-1]] raise on an empty list. *)
Definition _create_buttons_key_bindings (buttons : list Button)
  : result KeyBindings :=
  match buttons with
  | [] => Raise IndexError
  | first :: _ =>
      let kb : KeyBindings := [] in
      let first_selected := has_focus first.(window) in
      let last_selected := has_focus (last buttons first).(window) in
      let kb := kb_add kb Left (Some (Invert first_selected)) focus_previous in
      let kb := kb_add kb Right (Some (Invert last_selected)) focus_next in
      let kb := kb_add kb Tab None focus_next in
      let kb := kb_add kb BackTab None focus_previous in
      Ok kb
  end.

Definition _create_buttons_container (buttons : list Button)
  : result (Container Button) :=
  rbind (_create_buttons_key_bindings buttons) (fun buttons_kb =>
  Ok (VSplit (map Widget buttons) (Some buttons_kb))).

Definition _create_dialog_frame (title : pyval) (buttons : list Button)
  : result (Container Button) :=
  rbind (_create_buttons_container buttons) (fun buttons_container =>
  let frame_body := Box buttons_container in
  Ok (Shadow (Frame title frame_body))).

Definition _get_container (title : pyval) (buttons : list Button)
  : result (Container Button) :=
  rbind (_create_dialog_frame title buttons) (fun frame =>
  let dialog := Box frame in
  Ok (ConditionalContainer dialog Condition_is_visible)).

Definition _create_default_buttons : Alloc (list Button) :=
  for_each (fun button_name => create_button (PStr button_name) PNone)
           _DEFAULT_BUTTONS.

(** [title] and [buttons] are [None] when the keyword is not passed. *)
Definition __init__ (title : option pyval) (buttons : option (list Button))
  : Alloc t :=
  let title := match title with Some x => x | None => PStr "Run wizard?" end in
  (buttons <- match buttons with
              | None => _create_default_buttons
              | Some bs => ret bs
              end ;;
   container <- lift (_get_container title buttons) ;;
   ret {| _title := title; _buttons := buttons; container := container |})%alloc.

(** The body of the loop over the options. *)
Definition create_option_button (option : pyval) : Alloc Button :=
  match option with
  | PDict kvs =>
      (button_name <- lift (Py.getitem option "name") ;;
       create_button button_name (Py.dict_get kvs "description"))%alloc
  | _ => create_button option PNone
  end.

Definition from_done_section_definition (done_section_definition : pyval)
  : Alloc t :=
  if Py.truthy done_section_definition then
    (has_description <- lift (Py.contains "description" done_section_definition) ;;
     title <- (if has_description : bool
               then (d <- lift (Py.getitem done_section_definition "description") ;;
                     ret (Some d))
               else ret None) ;;
     has_options <- lift (Py.contains "options" done_section_definition) ;;
     buttons <- (if has_options : bool
                 then (options <- lift (Py.getitem done_section_definition "options") ;;
                       items <- lift (Py.iter options) ;;
                       buttons <- for_each create_option_button items ;;
                       ret (Some buttons))
                 else ret None) ;;
     __init__ title buttons)%alloc
  else __init__ None None.

End RunWizardDialog.

(* ================================================================== *)
(** ** class WizardLayoutFactory *)

(** Modelled from the spec: the class [WizardSectionTab] of
    [awscli/customizations/wizard/ui/section.py], which is not among the
    sources.  The specification gives the per-section renderer as
    [renderTab(name, def) -> Tab], opaque to the layout and with no failure
    of its own; the tab is kept as the two arguments of the call
    [WizardSectionTab(name, definition)]. *)
Record WizardSectionTab : Type := mkTab {
  tab_name : string;
  tab_definition : pyval
}.

(** Modelled from the spec: the class [WizardSectionBody] of
    [awscli/customizations/wizard/ui/section.py], which is not among the
    sources.  The specification gives the per-section renderer as
    [renderBody(name, def) -> Body], opaque to the layout and with no
    failure of its own; the body is kept as the two arguments of the call
    [WizardSectionBody(name, definition)]. *)
Record WizardSectionBody : Type := mkBody {
  body_name : string;
  body_definition : pyval
}.

(** The objects that the factory places in the layout.  [TitleLabel v] is
    the label whose text is the formatting of [v]; [WizardDetailsPanel_new]
    and [DetailPanelToolbarView_new] are the objects that the two
    constructors without arguments make. *)
Inductive LayoutWidget : Type :=
| TitleLabel (title : pyval)
| SectionTab (tab : WizardSectionTab)
| Spacer
| SectionBody (body : WizardSectionBody)
| Dialog (dialog : RunWizardDialog.t)
| WizardDetailsPanel_new
| DetailPanelToolbarView_new
| HorizontalLine.

Record Layout : Type := mkLayout {
  layout_container : Container LayoutWidget;
  run_wizard_dialog : RunWizardDialog.t
}.

Module WizardLayoutFactory.
Section WithCore.

(** [core.DONE_SECTION_NAME], the reserved name of the terminal section. *)
Variable DONE_SECTION_NAME : string.

Definition _create_title (definition : pyval) : result LayoutWidget :=
  rbind (Py.getitem definition "title") (fun title =>
  Ok (TitleLabel title)).

Definition _create_section_tab (section_name : string)
    (section_definition : pyval) : WizardSectionTab :=
  mkTab section_name section_definition.

Definition _create_done_section_tab (done_definition : pyval)
  : result WizardSectionTab :=
  rbind (if negb (Py.truthy done_definition) then Ok true
         else rbind (Py.contains "shortname" done_definition)
                    (fun present => Ok (negb present)))
        (fun replace : bool =>
  let done_definition :=
    if replace then PDict [("shortname", PStr "Done")] else done_definition in
  Ok (mkTab DONE_SECTION_NAME done_definition)).

Definition _create_section_body (section_name : string)
    (section_definition : pyval) : WizardSectionBody :=
  mkBody section_name section_definition.

(** The loop of [_create_sections], on the items still to visit and the
    two lists built so far. *)
Fixpoint sections_loop (run_wizard_dialog : RunWizardDialog.t)
    (items : list (string * pyval))
    (section_tabs section_bodies : list LayoutWidget)
  : result (list LayoutWidget * list LayoutWidget) :=
  match items with
  | [] => Ok (section_tabs, section_bodies)
  | (section_name, section_definition) :: rest =>
      if String.eqb section_name DONE_SECTION_NAME then
        rbind (_create_done_section_tab section_definition) (fun tab =>
        sections_loop run_wizard_dialog rest
          (section_tabs ++ [SectionTab tab])%list
          (section_bodies ++ [Dialog run_wizard_dialog])%list)
      else
        sections_loop run_wizard_dialog rest
          (section_tabs ++
             [SectionTab (_create_section_tab section_name section_definition)])%list
          (section_bodies ++
             [SectionBody (_create_section_body section_name section_definition)])%list
  end.

Definition _create_sections (definition : pyval)
    (run_wizard_dialog : RunWizardDialog.t) : result (Container LayoutWidget) :=
  rbind (Py.getitem definition "plan") (fun plan =>
  rbind (Py.items plan) (fun items =>
  rbind (sections_loop run_wizard_dialog items [] []) (fun lists =>
  let section_tabs := (fst lists ++ [Spacer])%list in
  let section_bodies := snd lists in
  Ok (VSplit
        [ HSplit (map Widget section_tabs);
          HSplit (map Widget
                    (section_bodies ++
                       [WizardDetailsPanel_new; DetailPanelToolbarView_new])%list) ]
        None)))).

Definition _create_run_wizard_dialog (wizard_defintion : pyval)
  : Alloc RunWizardDialog.t :=
  (plan <- lift (Py.getitem wizard_defintion "plan") ;;
   done_section <- lift (Py.getitem plan DONE_SECTION_NAME) ;;
   RunWizardDialog.from_done_section_definition done_section)%alloc.

Definition create_wizard_layout (definition : pyval) : Alloc Layout :=
  (run_wizard_dialog <- _create_run_wizard_dialog definition ;;
   title <- lift (_create_title definition) ;;
   sections <- lift (_create_sections definition run_wizard_dialog) ;;
   ret {| layout_container :=
            HSplit [Widget title; sections; Widget HorizontalLine];
          run_wizard_dialog := run_wizard_dialog |})%alloc.

End WithCore.
End WizardLayoutFactory.

(* ================================================================== *)
(** ** The running application *)

Section Host.

(** The traversal engine, with its query. *)
Variable Traverser : Type.
Variable has_no_remaining_prompts : Traverser -> bool.

(** What [get_app()] returns, as far as the layout reads or writes it:
    the traverser, the attribute [details_title] ([None] while it is not
    set), the window that has the focus and the windows of the layout
    that are visible and focusable, and the result passed to [exit]. *)
Record Application : Type := mkApp {
  traverser : Traverser;
  details_title : option string;
  current_window : nat;
  visible_focusable_windows : list nat;
  exit_result : option Z
}.

(** [move_to_previous_prompt] of the wizard's utilities, and the values
    of the two conditions of its key bindings. *)
Variable move_to_previous_prompt : Application -> Application.
Variable details_visible_now : Application -> bool.
Variable prompt_has_details_now : Application -> bool.

(** [STYLE] and [SPACING] of [BaseToolbarView]. *)
Variable STYLE : string.
Variable SPACING : string.

(** *** class WizardDetailsPanel *)

Definition WizardDetailsPanel_get_title (app : Application) : string :=
  Py.or_str (Py.getattr_default app.(details_title) "") "Details panel".

(** *** class DetailPanelToolbarView *)

(** The local [title] of [help_text]. *)
Definition DetailPanelToolbarView_title (app : Application) : string :=
  Py.getattr_default app.(details_title) "Details panel".

(** The markup that [help_text] hands to [HTML]. *)
Definition DetailPanelToolbarView_help_text (app : Application) : string :=
  let title := DetailPanelToolbarView_title app in
  STYLE ++ "[F2]</style> Switch to " ++ title ++ SPACING ++
  STYLE ++ "[F3]</style> Show/Hide " ++ title.

(** *** class RunWizardDialog, at run time *)

Definition RunWizardDialog_is_visible (app : Application) : bool :=
  has_no_remaining_prompts app.(traverser).

(** The handlers of the buttons. *)
Definition run_handler (h : Handler) (app : Application) : Application :=
  match h with
  | yes_handler =>
      {| traverser := app.(traverser);
         details_title := app.(details_title);
         current_window := app.(current_window);
         visible_focusable_windows := app.(visible_focusable_windows);
         exit_result := Some 0%Z |}
  | back_handler => move_to_previous_prompt app
  end.

(** *** Filters, focus and keys, as prompt_toolkit evaluates them *)

Fixpoint eval_filter (f : Filter) (app : Application) : bool :=
  match f with
  | has_focus w => Nat.eqb app.(current_window) w
  | Invert g => negb (eval_filter g app)
  | Condition_is_visible => RunWizardDialog_is_visible app
  | details_visible => details_visible_now app
  | prompt_has_details => prompt_has_details_now app
  end.

(** A [ConditionalContainer] shows its content while its filter holds. *)
Definition shown {W : Type} (c : Container W) (app : Application) : bool :=
  match c with
  | ConditionalContainer _ f => eval_filter f app
  | _ => true
  end.

(** [windows.index(w)] *)
Fixpoint index_of (w : nat) (windows : list nat) : option nat :=
  match windows with
  | [] => None
  | x :: rest =>
      if Nat.eqb x w then Some 0
      else match index_of w rest with
           | Some i => Some (S i)
           | None => None
           end
  end.

Definition focus (w : nat) (app : Application) : Application :=
  {| traverser := app.(traverser);
     details_title := app.(details_title);
     current_window := w;
     visible_focusable_windows := app.(visible_focusable_windows);
     exit_result := app.(exit_result) |}.

(** [Layout.focus_next] and [Layout.focus_previous]: the focus moves
    around the visible focusable windows, to the first of them when the
    current window is not among them. *)
Definition Layout_focus_next (app : Application) : Application :=
  let windows := app.(visible_focusable_windows) in
  match windows with
  | [] => app
  | _ :: _ =>
      let index :=
        match index_of app.(current_window) windows with
        | None => 0
        | Some i => (i + 1) mod length windows
        end in
      focus (nth index windows app.(current_window)) app
  end.

Definition Layout_focus_previous (app : Application) : Application :=
  let windows := app.(visible_focusable_windows) in
  match windows with
  | [] => app
  | _ :: _ =>
      let index :=
        match index_of app.(current_window) windows with
        | None => 0
        | Some i => (i + length windows - 1) mod length windows
        end in
      focus (nth index windows app.(current_window)) app
  end.

Definition run_focus_handler (h : FocusHandler) (app : Application)
  : Application :=
  match h with
  | focus_next => Layout_focus_next app
  | focus_previous => Layout_focus_previous app
  end.

Definition Keys_eqb (a b : Keys) : bool :=
  match a, b with
  | Left, Left | Right, Right | Tab, Tab | BackTab, BackTab => true
  | _, _ => false
  end.

Definition active (k : Keys) (app : Application) (b : Binding) : bool :=
  Keys_eqb b.(key) k &&
  match b.(filter) with
  | Some f => eval_filter f app
  | None => true
  end.

(** A key press, seen by one set of bindings: of the bindings for the key
    whose filter holds, the one added last runs; with none, nothing
    happens. *)
Definition press (kb : KeyBindings) (k : Keys) (app : Application)
  : Application :=
  match rev (List.filter (active k app) kb) with
  | [] => app
  | b :: _ => run_focus_handler b.(action) app
  end.

(** A key press, seen by the bindings attached to a container
    ([VSplit(self._buttons, key_bindings=buttons_kb)]): they are consulted
    only while the focus is on one of the [windows] of that container. *)
Definition press_within (windows : list nat) (kb : KeyBindings) (k : Keys)
    (app : Application) : Application :=
  if existsb (Nat.eqb app.(current_window)) windows
  then press kb k app
  else app.

End Host.

Arguments mkApp {Traverser}.
Arguments traverser {Traverser}.
Arguments details_title {Traverser}.
Arguments current_window {Traverser}.
Arguments visible_focusable_windows {Traverser}.
Arguments exit_result {Traverser}.
Arguments WizardDetailsPanel_get_title {Traverser}.
Arguments DetailPanelToolbarView_title {Traverser}.
Arguments DetailPanelToolbarView_help_text {Traverser}.
Arguments RunWizardDialog_is_visible {Traverser}.
Arguments run_handler {Traverser}.
Arguments eval_filter {Traverser}.
Arguments shown {Traverser} _ _ _ {W}.
Arguments focus {Traverser}.
Arguments Layout_focus_next {Traverser}.
Arguments Layout_focus_previous {Traverser}.
Arguments run_focus_handler {Traverser}.
Arguments active {Traverser}.
Arguments press_within {Traverser}.
Arguments press {Traverser}.

(* ================================================================== *)
(** ** Section definitions, as the specification speaks of them *)

(** A terminal section "lacks" a field when it is absent ([None]) or a
    mapping without that key. *)
Definition lacks (field : string) (section_definition : pyval) : Prop :=
  match section_definition with
  | PNone => True
  | PDict kvs => Py.lookup field kvs = None
  | _ => False
  end.

(** An entry of [options] names an action either as a bare string or as a
    mapping whose [name] is that string. *)
Definition names_action (option : pyval) (name : string) : Prop :=
  option = PStr name \/
  exists kvs, option = PDict kvs /\ Py.lookup "name" kvs = Some (PStr name).

(** No builder is registered for [name]: the factory has no attribute
    [_create_<name>_button]. *)
Definition no_builder (name : string) : Prop :=
  RunWizardDialogButtonFactory.getattr ("_create_" ++ name ++ "_button")
  = Raise AttributeError.

(** The label that an action has of its own: the default [text] of its
    builder. *)
Definition built_in_label (name : string) : option string :=
  if String.eqb name "yes" then Some "Yes"
  else if String.eqb name "back" then Some "Back"
  else None.

(** One button per option, in the order of the options: the [i]-th button
    is the one that the [i]-th option builds, as the [i]-th object
    allocated from [n]. *)
Definition one_action_per_option (options : list pyval) (buttons : list Button)
    (n : nat) : Prop :=
  length buttons = length options /\
  forall i option, nth_error options i = Some option ->
    exists b, nth_error buttons i = Some b /\
              RunWizardDialog.create_option_button option (n + i) = Ok (b, S (n + i)).

(** The two default buttons, allocated from [n]. *)
Definition default_buttons (n : nat) : list Button :=
  [ {| text := PStr "Yes"; handler := yes_handler; window := n;
       always_hide_cursor := true |};
    {| text := PStr "Back"; handler := back_handler; window := S n;
       always_hide_cursor := true |} ].

(** The tab and the body that a section of the plan gets. *)
Definition tab_for (DONE_SECTION_NAME : string) (section : string * pyval)
    (tab : WizardSectionTab) : Prop :=
  if String.eqb (fst section) DONE_SECTION_NAME
  then WizardLayoutFactory._create_done_section_tab DONE_SECTION_NAME (snd section)
       = Ok tab
  else tab = {| tab_name := fst section; tab_definition := snd section |}.

Definition body_for (DONE_SECTION_NAME : string) (dialog : RunWizardDialog.t)
    (section : string * pyval) : LayoutWidget :=
  if String.eqb (fst section) DONE_SECTION_NAME
  then Dialog dialog
  else SectionBody {| body_name := fst section; body_definition := snd section |}.

(** The label of the button that an option asks for, for an action whose
    own label is [built_in]: the description of the option when the option
    is a mapping with a truthy description, and [built_in] otherwise. *)
Definition option_label (option : pyval) (built_in : string) : pyval :=
  match option with
  | PDict kvs =>
      match Py.lookup "description" kvs with
      | Some description =>
          if Py.truthy description then description else PStr built_in
      | None => PStr built_in
      end
  | _ => PStr built_in
  end.

(** The button [b] is the action that the option names: the option names
    yes and [b] confirms, or the option names back and [b] goes back, with
    the label that the option asks for. *)
Definition is_action_of (option : pyval) (b : Button) : Prop :=
  (names_action option "yes" /\ b.(handler) = yes_handler /\
   b.(text) = option_label option "Yes") \/
  (names_action option "back" /\ b.(handler) = back_handler /\
   b.(text) = option_label option "Back").

(** The dialog built without keywords, its buttons allocated from 0. *)
Definition dialog_by_default : RunWizardDialog.t :=
  Eval vm_compute in
    match RunWizardDialog.__init__ None None 0 with
    | Ok (dialog, _) => dialog
    | Raise _ => RunWizardDialog.mk PNone [] (HSplit [])
    end.

(** A host used as an example: its traverser is the answer that it gives
    to [has_no_remaining_prompts], and going back to the previous prompt
    leaves a prompt to answer. *)
Definition example_has_no_remaining_prompts (t : bool) : bool := t.

Definition example_move_to_previous_prompt (app : Application bool)
  : Application bool :=
  mkApp false app.(details_title) app.(current_window)
        app.(visible_focusable_windows) app.(exit_result).

Definition example_condition (app : Application bool) : bool := false.

(** The application when the dialog has just appeared, with the default
    buttons (windows 0 and 1) as the visible focusable windows and the
    focus on window [w]. *)
Definition example_app (w : nat) : Application bool :=
  mkApp true None w [0; 1] None.


(** Terminal sections used as examples. *)
Definition options_finish : list pyval :=
  [ PStr "yes"; PDict [ ("name", PStr "back"); ("description", PStr "Go back") ] ].

Definition section_finish : pyval :=
  PDict [ ("description", PStr "Finish?"); ("options", PList options_finish) ].

Definition options_malformed_then_unknown : list pyval :=
  [ PDict [ ("description", PStr "x") ]; PStr "unknown_action" ].

Definition section_unknown_action : pyval :=
  PDict [ ("options", PList [ PStr "unknown_action" ]) ].

Definition section_malformed_then_unknown : pyval :=
  PDict [ ("options", PList options_malformed_then_unknown) ].

Definition sections_net_done (done_name : string) (done_section : pyval)
  : list (string * pyval) :=
  [ ("net", PDict [ ("shortname", PStr "Network") ]); (done_name, done_section) ].

Definition plan_net_done (done_name : string) (done_section : pyval) : pyval :=
  PDict [ ("title", PStr "Setup");
          ("plan", PDict (sections_net_done done_name done_section)) ].

Definition option_yes_empty_description : pyval :=
  PDict [ ("name", PStr "yes"); ("description", PStr "") ].

Definition section_description_only : pyval :=
  PDict [ ("description", PStr "Finish?") ].

(* ================================================================== *)
(** ** What is on screen, and repeated keys *)

(** The widgets of a container that are displayed when [holds] tells which
    filters hold: a [ConditionalContainer] contributes its content only
    while its filter holds. *)
Fixpoint visible_widgets {W : Type} (holds : Filter -> bool) (c : Container W)
  : list W :=
  match c with
  | Widget w => [w]
  | HSplit children => flat_map (visible_widgets holds) children
  | VSplit children _ => flat_map (visible_widgets holds) children
  | Box body => visible_widgets holds body
  | Shadow body => visible_widgets holds body
  | Frame _ body => visible_widgets holds body
  | ConditionalContainer content f =>
      if holds f then visible_widgets holds content else []
  end.

(** The body of the layout is the dialog. *)
Definition is_dialog (w : LayoutWidget) : bool :=
  match w with
  | Dialog _ => true
  | _ => false
  end.

(** The values on which [in] raises: numbers and booleans that are
    truthy reach the test, and have no members. *)
Definition truthy_scalar (v : pyval) : Prop :=
  v = PBool true \/ exists z, v = PInt z /\ z <> 0%Z.

(** More examples. *)
Definition option_without_name : pyval :=
  PDict [ ("description", PStr "x") ].

Definition app_on_ring (t : bool) (w : nat) (ring : list nat) : Application bool :=
  mkApp t None w ring None.

Definition button_at_4 : Button :=
  {| text := PStr "Yes"; handler := yes_handler; window := 4;
     always_hide_cursor := true |}.

Definition buttons_at_5_6 : list Button :=
  [ {| text := PStr "Back"; handler := back_handler; window := 5;
       always_hide_cursor := true |};
    {| text := PStr "Again"; handler := back_handler; window := 6;
       always_hide_cursor := true |} ].

Definition three_buttons : list Button := button_at_4 :: buttons_at_5_6.

Definition three_buttons_kb : KeyBindings :=
  Eval vm_compute in
    match RunWizardDialog._create_buttons_key_bindings three_buttons with
    | Ok kb => kb
    | Raise _ => []
    end.

(* ================================================================== *)
(** ** Properties *)

(** *** Allocation and loops *)

Lemma bind_Ok {A B : Type} (c : Alloc A) (k : A -> Alloc B) n b n' :
  bind c k n = Ok (b, n') ->
  exists a m, c n = Ok (a, m) /\ k a m = Ok (b, n').
Proof.
  unfold bind. destruct (c n) as [[a m] | e]; [ | discriminate ].
  intros H. exists a, m. split; [ reflexivity | exact H ].
Qed.

Lemma lift_Ok {A : Type} (r : result A) n a n' :
  lift r n = Ok (a, n') -> r = Ok a /\ n' = n.
Proof.
  unfold lift. destruct r as [x | e]; [ | discriminate ].
  intros H. injection H as -> ->. split; reflexivity.
Qed.

Lemma ret_Ok {A : Type} (a b : A) n n' :
  ret a n = Ok (b, n') -> b = a /\ n' = n.
Proof. unfold ret. intros H. injection H as -> ->. split; reflexivity. Qed.

Ltac inv_alloc :=
  repeat match goal with
  | H : bind _ _ _ = Ok _ |- _ =>
      let a := fresh "a" in let m := fresh "m" in
      let Ha := fresh "Hrun" in let Hk := fresh "Hrest" in
      apply bind_Ok in H; destruct H as (a & m & Ha & Hk)
  | H : lift _ _ = Ok _ |- _ =>
      let E := fresh "Eres" in let En := fresh "En" in
      apply lift_Ok in H; destruct H as [E En]
  | H : ret _ _ = Ok _ |- _ =>
      let E := fresh "Eret" in let En := fresh "En" in
      apply ret_Ok in H; destruct H as [E En]
  end.

(** A loop whose body allocates one object per item yields one element per
    item, in the order of the items, the [i]-th built at the [i]-th
    identity after the start. *)
Lemma for_each_one_each {A B : Type} (f : A -> Alloc B) :
  (forall x n b n', f x n = Ok (b, n') -> n' = S n) ->
  forall xs n bs n',
    for_each f xs n = Ok (bs, n') ->
    n' = n + length xs /\
    length bs = length xs /\
    forall i x, nth_error xs i = Some x ->
      exists b, nth_error bs i = Some b /\ f x (n + i) = Ok (b, S (n + i)).
Proof.
  intros Hone xs. induction xs as [ | x xs IH ]; intros n bs n' H; simpl in H.
  - apply ret_Ok in H. destruct H as [-> ->]. simpl.
    repeat split; [ lia | ].
    intros i y Hi. destruct i; discriminate.
  - inv_alloc. subst.
    pose proof (Hone _ _ _ _ Hrun) as ->.
    apply IH in Hrun0. destruct Hrun0 as (-> & Hlen & Hnth).
    simpl. repeat split; [ lia | lia | ].
    intros [ | i ] y Hi; simpl in Hi.
    + injection Hi as <-. exists a. rewrite Nat.add_0_r. split; [ reflexivity | exact Hrun ].
    + destruct (Hnth i y Hi) as (b & Hb & Hf).
      exists b. simpl. replace (n + S i) with (S n + i) by lia.
      split; assumption.
Qed.

(** The loop raises what its body raises at the first item that fails. *)
Lemma for_each_Raise_at {A B : Type} (f : A -> Alloc B) pre x post n bs n' e :
  for_each f pre n = Ok (bs, n') ->
  f x n' = Raise e ->
  for_each f (pre ++ x :: post) n = Raise e.
Proof.
  revert n bs. induction pre as [ | y pre IH ]; intros n bs Hpre Hx; simpl in *.
  - apply ret_Ok in Hpre. destruct Hpre as [_ ->].
    unfold bind. rewrite Hx. reflexivity.
  - inv_alloc. subst. unfold bind at 1. rewrite Hrun.
    unfold bind at 1. erewrite IH; eauto.
Qed.

(** An item on which the body always raises makes the loop raise, at that
    item or before it. *)
Lemma for_each_Raise_In {A B : Type} (f : A -> Alloc B) x e0 :
  (forall n, f x n = Raise e0) ->
  forall xs n, In x xs -> exists e, for_each f xs n = Raise e.
Proof.
  intros Hx xs. induction xs as [ | y xs IH ]; intros n Hin; [ destruct Hin | ].
  simpl. unfold bind at 1.
  destruct (f y n) as [[b m] | e] eqn:Ey; [ | exists e; reflexivity ].
  destruct Hin as [-> | Hin].
  - rewrite Hx in Ey. discriminate.
  - destruct (IH m Hin) as (e & He). exists e.
    unfold bind at 1. rewrite He. reflexivity.
Qed.

(** *** The button factory *)

Section FactoryFacts.

Import RunWizardDialogButtonFactory.

Lemma _create_dialog_button_run text0 h n :
  _create_dialog_button text0 h n
  = Ok ({| text := text0; handler := h; window := n;
           always_hide_cursor := true |}, S n).
Proof. reflexivity. Qed.

(** Every button that the factory returns is a fresh object, with the
    text cursor hidden. *)
Lemma create_button_fresh button_name text0 n b n' :
  create_button button_name text0 n = Ok (b, n') ->
  n' = S n /\ b.(window) = n /\ b.(always_hide_cursor) = true.
Proof.
  unfold create_button. intros H. inv_alloc. subst.
  destruct a; simpl in Hrest; try discriminate;
    unfold _create_yes_button, _create_back_button in Hrest;
    rewrite _create_dialog_button_run in Hrest;
    injection Hrest as <- <-; repeat split.
Qed.

Lemma create_button_yes text0 n :
  create_button (PStr "yes") text0 n
  = Ok ({| text := if Py.truthy text0 then text0 else PStr "Yes";
           handler := yes_handler; window := n;
           always_hide_cursor := true |}, S n).
Proof. unfold create_button. destruct (Py.truthy text0); reflexivity. Qed.

Lemma create_button_back text0 n :
  create_button (PStr "back") text0 n
  = Ok ({| text := if Py.truthy text0 then text0 else PStr "Back";
           handler := back_handler; window := n;
           always_hide_cursor := true |}, S n).
Proof. unfold create_button. destruct (Py.truthy text0); reflexivity. Qed.

(** Which names have an attribute [_create_<name>_button]: the two
    actions, and "dialog", which completes the name of the helper that both
    builders call. *)
Lemma string_length_append (s t : string) :
  String.length (s ++ t) = String.length s + String.length t.
Proof. induction s as [ | c s IH ]; simpl; [ reflexivity | rewrite IH; reflexivity ]. Qed.

Lemma append_cancel_r (s1 s2 t : string) : s1 ++ t = s2 ++ t -> s1 = s2.
Proof.
  revert s2. induction s1 as [ | c s1 IH ]; intros [ | c2 s2 ] H; simpl in H.
  - reflexivity.
  - apply (f_equal String.length) in H. simpl in H.
    rewrite string_length_append in H. lia.
  - apply (f_equal String.length) in H. simpl in H.
    rewrite string_length_append in H. lia.
  - injection H as -> H. rewrite (IH _ H). reflexivity.
Qed.

Lemma getattr_builder_name name m :
  getattr ("_create_" ++ name ++ "_button") = Ok m ->
  (name = "yes" /\ m = m_create_yes_button) \/
  (name = "back" /\ m = m_create_back_button) \/
  (name = "dialog" /\ m = m_create_dialog_button).
Proof.
  unfold getattr, attributes. simpl.
  destruct (String.eqb_spec (name ++ "_button") "yes_button") as [ E | _ ].
  { intros H. injection H as <-. left. split; [ | reflexivity ].
    apply (append_cancel_r name "yes" "_button"), E. }
  destruct (String.eqb_spec (name ++ "_button") "back_button") as [ E | _ ].
  { intros H. injection H as <-. right. left. split; [ | reflexivity ].
    apply (append_cancel_r name "back" "_button"), E. }
  destruct (String.eqb_spec (name ++ "_button") "dialog_button") as [ E | _ ].
  { intros H. injection H as <-. right. right. split; [ | reflexivity ].
    apply (append_cancel_r name "dialog" "_button"), E. }
  discriminate.
Qed.

Lemma no_builder_iff name :
  no_builder name <-> name <> "yes" /\ name <> "back" /\ name <> "dialog".
Proof.
  unfold no_builder. split.
  - intros H. repeat split; intros ->; discriminate H.
  - intros (Hy & Hb & Hd).
    destruct (getattr ("_create_" ++ name ++ "_button")) as [ m | e ] eqn:E.
    + apply getattr_builder_name in E.
      destruct E as [[-> _] | [[-> _] | [-> _]]]; congruence.
    + unfold getattr in E.
      destruct (find_attribute ("_create_" ++ name ++ "_button") attributes);
        [ discriminate | ].
      injection E as <-. reflexivity.
Qed.

(** The only buttons that the factory returns are those of yes and back. *)
Lemma create_button_Ok_name button_name text0 n b n' :
  create_button button_name text0 n = Ok (b, n') ->
  button_name = PStr "yes" \/ button_name = PStr "back".
Proof.
  unfold create_button. intros H.
  apply bind_Ok in H. destruct H as (m & k & Hm & Hcall).
  apply lift_Ok in Hm. destruct Hm as [Hm _].
  destruct button_name as [ | | | name | | ]; simpl in Hm; try discriminate.
  apply getattr_builder_name in Hm.
  destruct Hm as [[-> _] | [[-> _] | [-> ->]]]; [ left | right | ]; try reflexivity.
  discriminate Hcall.
Qed.

(** What [create_button] returns, by the name of the button. *)
Lemma create_button_Ok_shape button_name text0 n b n' :
  create_button button_name text0 n = Ok (b, n') ->
  (button_name = PStr "yes" /\ b.(handler) = yes_handler /\
   b.(text) = (if Py.truthy text0 then text0 else PStr "Yes")) \/
  (button_name = PStr "back" /\ b.(handler) = back_handler /\
   b.(text) = (if Py.truthy text0 then text0 else PStr "Back")).
Proof.
  intros H. destruct (create_button_Ok_name _ _ _ _ _ H) as [-> | ->].
  - rewrite create_button_yes in H. injection H as <- _.
    left. repeat split.
  - rewrite create_button_back in H. injection H as <- _.
    right. repeat split.
Qed.

(** A name without a builder makes [create_button] raise
    [AttributeError], whatever the text. *)
Lemma create_button_no_builder name text0 n :
  no_builder name ->
  create_button (PStr name) text0 n = Raise AttributeError.
Proof.
  unfold no_builder, create_button, getattr_builder. intros ->.
  reflexivity.
Qed.

End FactoryFacts.

(** *** The dialog *)

Section DialogFacts.

Import RunWizardDialogButtonFactory RunWizardDialog.

Lemma create_option_button_fresh option n b n' :
  create_option_button option n = Ok (b, n') ->
  n' = S n /\ b.(window) = n.
Proof.
  intros H.
  assert (Hc : exists name t, create_button name t n = Ok (b, n')).
  { destruct option; simpl in H; eauto.
    inv_alloc. subst. eauto. }
  destruct Hc as (name & t & Hc).
  apply create_button_fresh in Hc. tauto.
Qed.

Lemma create_option_button_no_builder option name n :
  names_action option name -> no_builder name ->
  create_option_button option n = Raise AttributeError.
Proof.
  intros [-> | (kvs & -> & Hname)] Hno.
  - simpl. apply create_button_no_builder, Hno.
  - simpl. unfold bind, lift. rewrite Hname.
    apply create_button_no_builder, Hno.
Qed.

Lemma _get_container_Ok title buttons :
  buttons <> [] ->
  exists c, _get_container title buttons = Ok c /\
            exists content, c = ConditionalContainer content Condition_is_visible.
Proof.
  destruct buttons as [ | b0 rest ]; [ congruence | intros _ ].
  eexists. split; [ reflexivity | ]. eexists. reflexivity.
Qed.

Lemma _get_container_empty title :
  _get_container title [] = Raise IndexError.
Proof. reflexivity. Qed.

(** [__init__] with a list of buttons keeps that list and allocates
    nothing; it raises [IndexError] on the empty list. *)
Lemma init_with_buttons title buttons n :
  buttons <> [] ->
  exists dlg,
    __init__ title (Some buttons) n = Ok (dlg, n) /\
    dlg.(_buttons) = buttons /\
    dlg.(_title) = match title with Some x => x | None => PStr "Run wizard?" end.
Proof.
  intros Hne.
  destruct (_get_container_Ok
              (match title with Some x => x | None => PStr "Run wizard?" end)
              buttons Hne) as (c & Hc & _).
  unfold __init__, bind, ret, lift. rewrite Hc.
  eexists. split; [ reflexivity | split; reflexivity ].
Qed.

Lemma init_with_no_buttons title n :
  __init__ title (Some []) n = Raise IndexError.
Proof. reflexivity. Qed.

(** [__init__] without buttons builds the two defaults. *)
Lemma init_default_buttons title n :
  exists dlg,
    __init__ title None n = Ok (dlg, S (S n)) /\
    dlg.(_buttons) = default_buttons n /\
    dlg.(_title) = match title with Some x => x | None => PStr "Run wizard?" end.
Proof.
  eexists. split; [ reflexivity | split; reflexivity ].
Qed.

(** What a successful [__init__] returns. *)
Lemma init_Ok title buttons n dlg n' :
  __init__ title buttons n = Ok (dlg, n') ->
  dlg.(_buttons) <> [] /\
  dlg.(_title) = match title with Some x => x | None => PStr "Run wizard?" end /\
  (forall bs, buttons = Some bs -> dlg.(_buttons) = bs /\ n' = n) /\
  (exists content,
      dlg.(container) = ConditionalContainer content Condition_is_visible).
Proof.
  destruct buttons as [ bs | ].
  - destruct bs as [ | b0 rest ].
    + rewrite init_with_no_buttons. discriminate.
    + intros H. unfold __init__, bind, ret, lift in H. simpl in H.
      injection H as <- <-. simpl.
      split; [ discriminate | split; [ reflexivity | split ] ].
      * intros bs Hbs. injection Hbs as <-. split; reflexivity.
      * eexists. reflexivity.
  - destruct (init_default_buttons title n) as (d & Hd & Hb & Ht).
    rewrite Hd. intros H. injection H as <- <-.
    split; [ rewrite Hb; discriminate | split; [ exact Ht | split ] ].
    + intros bs Hbs. discriminate.
    + unfold __init__, bind, ret, lift in Hd. simpl in Hd.
      injection Hd as <-. eexists. reflexivity.
Qed.

End DialogFacts.

Section ConstructionFacts.

Import RunWizardDialogButtonFactory RunWizardDialog.

Lemma bind_lift_Ok {A B : Type} (a : A) (k : A -> Alloc B) n :
  bind (lift (Ok a)) k n = k a n.
Proof. reflexivity. Qed.

Lemma bind_ret {A B : Type} (a : A) (k : A -> Alloc B) n :
  bind (ret a) k n = k a n.
Proof. reflexivity. Qed.

(** An absent or empty terminal section goes straight to [__init__]
    without keywords. *)
Lemma from_done_falsy d n :
  Py.truthy d = false ->
  from_done_section_definition d n = __init__ None None n.
Proof. unfold from_done_section_definition. intros ->. reflexivity. Qed.

(** On a non-empty mapping, the title is the [description] if there is
    one and the buttons are those of the [options] if there are some. *)
Lemma from_done_mapping kvs n :
  kvs <> [] ->
  from_done_section_definition (PDict kvs) n =
  bind (match Py.lookup "options" kvs with
        | Some options =>
            (items <- lift (Py.iter options) ;;
             buttons <- for_each create_option_button items ;;
             ret (Some buttons))%alloc
        | None => ret None
        end)
       (fun buttons => __init__ (Py.lookup "description" kvs) buttons) n.
Proof.
  intros Hne. unfold from_done_section_definition.
  replace (Py.truthy (PDict kvs)) with true
    by (destruct kvs; [ congruence | reflexivity ]).
  simpl Py.contains. simpl Py.getitem.
  rewrite bind_lift_Ok.
  destruct (Py.lookup "description" kvs) as [ descr | ];
    destruct (Py.lookup "options" kvs) as [ options | ]; reflexivity.
Qed.

Lemma getitem_Ok_mapping d k v :
  Py.getitem d k = Ok v ->
  exists kvs, d = PDict kvs /\ kvs <> [] /\ Py.lookup k kvs = Some v.
Proof.
  destruct d; simpl; try discriminate.
  destruct (Py.lookup k kvs) as [ x | ] eqn:E; [ | discriminate ].
  intros H. injection H as <-. exists kvs. repeat split; [ | exact E ].
  intros ->. discriminate.
Qed.

(** With a list of options, construction is the loop over the options
    followed by [__init__] on the buttons built. *)
Lemma from_done_options d opts n :
  Py.getitem d "options" = Ok (PList opts) ->
  exists title,
    from_done_section_definition d n =
    bind (for_each create_option_button opts)
         (fun buttons => __init__ title (Some buttons)) n.
Proof.
  intros H. apply getitem_Ok_mapping in H.
  destruct H as (kvs & -> & Hne & Hopts).
  exists (Py.lookup "description" kvs).
  rewrite (from_done_mapping kvs n Hne), Hopts. simpl Py.iter.
  unfold bind, lift, ret.
  destruct (for_each create_option_button opts n) as [[bs m] | e]; reflexivity.
Qed.

(** Without options, construction is [__init__] with default buttons. *)
Lemma from_done_no_options d n :
  lacks "options" d ->
  exists title,
    from_done_section_definition d n = __init__ title None n /\
    (lacks "description" d -> title = None).
Proof.
  destruct d as [ | | | | | kvs ]; simpl; try contradiction.
  - intros _. exists None. split; [ reflexivity | reflexivity ].
  - intros Hopts. destruct kvs as [ | kv kvs ].
    + exists None. split; reflexivity.
    + exists (Py.lookup "description" (kv :: kvs)).
      rewrite from_done_mapping by discriminate. rewrite Hopts.
      split; [ reflexivity | intros H; exact H ].
Qed.

(** Whatever the terminal section, a dialog that was built went through
    [__init__], with the description as title when there is one. *)
Lemma from_done_Ok_init d n dlg n' :
  from_done_section_definition d n = Ok (dlg, n') ->
  exists title buttons m,
    __init__ title buttons m = Ok (dlg, n') /\
    (lacks "description" d -> title = None).
Proof.
  unfold from_done_section_definition.
  destruct (Py.truthy d) eqn:Et.
  - intros H. inv_alloc. subst.
    match goal with
    | Hi : __init__ ?title ?buttons ?m = Ok _ |- _ =>
        exists title, buttons, m; split; [ exact Hi | ]
    end.
    intros Hlacks.
    destruct d as [ | | | | | kvs ]; simpl in Hlacks; try contradiction;
      try discriminate.
    match goal with
    | Hc : Py.contains "description" _ = Ok ?present,
      Hr : (if ?present then _ else _) _ = Ok _ |- _ =>
        simpl in Hc; rewrite Hlacks in Hc; injection Hc as <-;
        apply ret_Ok in Hr; tauto
    end.
  - intros H. exists None, None, n. split; [ exact H | reflexivity ].
Qed.

End ConstructionFacts.

(** *** The actions of the dialog *)

Section DialogActions.

Import RunWizardDialogButtonFactory RunWizardDialog.

(** The loop over a list of options that builds gives one button each. *)
Lemma for_each_option_buttons opts n bs n' :
  for_each create_option_button opts n = Ok (bs, n') ->
  n' = n + length opts /\ one_action_per_option opts bs n.
Proof.
  intros H.
  apply (for_each_one_each create_option_button) in H.
  - destruct H as (Hn & Hlen & Hnth). split; [ exact Hn | split; assumption ].
  - intros x m b m' Hx. apply create_option_button_fresh in Hx. tauto.
Qed.

(** Construction succeeds on every non-empty list of options that build
    in turn, and binds the buttons built. *)
Lemma from_done_options_total d opts n bs n' :
  Py.getitem d "options" = Ok (PList opts) ->
  opts <> [] ->
  for_each create_option_button opts n = Ok (bs, n') ->
  exists dlg,
    from_done_section_definition d n = Ok (dlg, n') /\ dlg.(_buttons) = bs.
Proof.
  intros Hopts Hne Hloop.
  destruct (from_done_options d opts n Hopts) as (title & ->).
  unfold bind at 1. rewrite Hloop.
  assert (Hbs : bs <> []).
  { apply for_each_option_buttons in Hloop. destruct Hloop as (_ & Hlen & _).
    intros ->. destruct opts; [ congruence | discriminate ]. }
  destruct (init_with_buttons title bs n' Hbs) as (dlg & Hd & Hb & _).
  exists dlg. split; assumption.
Qed.

(** The button that an option builds is the action that the option
    names, with the label that the option asks for. *)
Lemma create_option_button_is_action option n b n' :
  create_option_button option n = Ok (b, n') ->
  is_action_of option b.
Proof.
  intros H. unfold is_action_of, names_action.
  destruct option as [ | x | z | s | items | kvs ];
    try (simpl in H; apply create_button_Ok_shape in H;
         destruct H as [(E & _) | (E & _)]; discriminate E).
  - simpl in H. apply create_button_Ok_shape in H. simpl in H.
    destruct H as [(E & Hh & Ht) | (E & Hh & Ht)]; injection E as ->.
    + left. split; [ left; reflexivity | split; assumption ].
    + right. split; [ left; reflexivity | split; assumption ].
  - simpl in H. apply bind_Ok in H. destruct H as (name & m & Hname & H).
    apply lift_Ok in Hname. destruct Hname as [Hname ->].
    destruct (Py.lookup "name" kvs) as [ v | ] eqn:En; [ | discriminate Hname ].
    injection Hname as ->.
    apply create_button_Ok_shape in H.
    assert (Hlabel : forall built_in,
               (if Py.truthy (Py.dict_get kvs "description")
                then Py.dict_get kvs "description" else PStr built_in)
               = option_label (PDict kvs) built_in).
    { intros built_in. unfold option_label, Py.dict_get.
      destruct (Py.lookup "description" kvs); reflexivity. }
    destruct H as [(-> & Hh & Ht) | (-> & Hh & Ht)]; rewrite Hlabel in Ht.
    + left. split; [ right; exists kvs; split; [ reflexivity | exact En ] | ].
      split; assumption.
    + right. split; [ right; exists kvs; split; [ reflexivity | exact En ] | ].
      split; assumption.
Qed.

(** C2. When the terminal section supplies a non-empty list of options,
    the dialog that [from_done_section_definition] constructs has as many
    buttons as there are options, and the [i]-th button is the action that
    the [i]-th option names (yes or back, by its handler), with the label
    that this option asks for; the buttons are exactly what the loop over
    the options returns. *)
Theorem options_give_one_action_each d opts n dlg n' :
  Py.getitem d "options" = Ok (PList opts) ->
  opts <> [] ->
  from_done_section_definition d n = Ok (dlg, n') ->
  length dlg.(_buttons) = length opts /\
  (forall i option,
      nth_error opts i = Some option ->
      exists b, nth_error dlg.(_buttons) i = Some b /\ is_action_of option b) /\
  one_action_per_option opts dlg.(_buttons) n /\
  for_each create_option_button opts n = Ok (dlg.(_buttons), n').
Proof.
  intros Hopts Hne Hrun.
  destruct (from_done_options d opts n Hopts) as (title & Heq).
  rewrite Heq in Hrun. apply bind_Ok in Hrun.
  destruct Hrun as (bs & m & Hloop & Hinit).
  apply init_Ok in Hinit. destruct Hinit as (_ & _ & Hsame & _).
  destruct (Hsame bs eq_refl) as [-> ->].
  pose proof (for_each_option_buttons _ _ _ _ Hloop) as (_ & Hone).
  split; [ exact (proj1 Hone) | split; [ | split; [ exact Hone | exact Hloop ] ] ].
  intros i option Hi. destruct (proj2 Hone i option Hi) as (b & Hb & Hbuilt).
  exists b. split; [ exact Hb | ].
  eapply create_option_button_is_action; exact Hbuilt.
Qed.

Lemma options_give_one_action_each_witness :
  exists dlg,
    (Py.getitem section_finish "options" = Ok (PList options_finish) /\
     options_finish <> [] /\
     from_done_section_definition section_finish 0 = Ok (dlg, 2)) /\
    (length dlg.(_buttons) = length options_finish /\
     (forall i option,
         nth_error options_finish i = Some option ->
         exists b, nth_error dlg.(_buttons) i = Some b /\ is_action_of option b) /\
     one_action_per_option options_finish dlg.(_buttons) 0 /\
     for_each create_option_button options_finish 0 = Ok (dlg.(_buttons), 2)).
Proof.
  eexists. split.
  - split; [ reflexivity | split; [ discriminate | reflexivity ] ].
  - apply (options_give_one_action_each section_finish options_finish 0 _ 2);
      [ reflexivity | discriminate | reflexivity ].
Defined.

(** A dialog that was built has at least one button. *)
Lemma from_done_buttons_nonempty d n dlg n' :
  from_done_section_definition d n = Ok (dlg, n') ->
  dlg.(_buttons) <> [].
Proof.
  intros H. apply from_done_Ok_init in H.
  destruct H as (title & buttons & m & Hinit & _).
  apply init_Ok in Hinit. tauto.
Qed.

(** Without options the buttons are the two defaults. *)
Lemma from_done_default_buttons d n :
  lacks "options" d ->
  exists dlg,
    from_done_section_definition d n = Ok (dlg, S (S n)) /\
    dlg.(_buttons) = default_buttons n /\
    (lacks "description" d -> dlg.(_title) = PStr "Run wizard?").
Proof.
  intros Hopts.
  destruct (from_done_no_options d n Hopts) as (title & -> & Htitle).
  destruct (init_default_buttons title n) as (dlg & Hd & Hb & Ht).
  exists dlg. split; [ exact Hd | split; [ exact Hb | ] ].
  intros Hdesc. rewrite Ht, (Htitle Hdesc). reflexivity.
Qed.

(** An empty list of options makes construction raise. *)
Lemma from_done_empty_options d n :
  Py.getitem d "options" = Ok (PList []) ->
  from_done_section_definition d n = Raise IndexError.
Proof.
  intros Hopts.
  destruct (from_done_options d [] n Hopts) as (title & ->).
  reflexivity.
Qed.

(** C3. For every plan definition for which the construction of the
    dialog succeeds, the buttons bound to the dialog are not empty; when
    the terminal section supplies no options they are the two defaults,
    yes and back; and the options of the terminal section are not the
    empty list, on which construction raises instead of building a dialog
    without buttons. *)
Theorem dialog_actions_never_empty DONE_SECTION_NAME definition plan
    done_section n dlg n' :
  Py.getitem definition "plan" = Ok plan ->
  Py.getitem plan DONE_SECTION_NAME = Ok done_section ->
  WizardLayoutFactory._create_run_wizard_dialog DONE_SECTION_NAME definition n
  = Ok (dlg, n') ->
  dlg.(_buttons) <> [] /\
  (lacks "options" done_section -> dlg.(_buttons) = default_buttons n) /\
  Py.getitem done_section "options" <> Ok (PList []).
Proof.
  intros Hplan Hdone H.
  unfold WizardLayoutFactory._create_run_wizard_dialog in H.
  rewrite Hplan, bind_lift_Ok, Hdone, bind_lift_Ok in H.
  split; [ | split ].
  - eapply from_done_buttons_nonempty; exact H.
  - intros Hlacks.
    destruct (from_done_default_buttons done_section n Hlacks)
      as (dlg' & Hd & Hb & _).
    rewrite Hd in H. injection H as <- _. exact Hb.
  - intros Hempty. rewrite (from_done_empty_options _ n Hempty) in H.
    discriminate.
Qed.

Lemma dialog_actions_never_empty_witness :
  exists dlg,
    (Py.getitem (plan_net_done "__DONE__" PNone) "plan"
     = Ok (PDict (sections_net_done "__DONE__" PNone)) /\
     Py.getitem (PDict (sections_net_done "__DONE__" PNone)) "__DONE__"
     = Ok PNone /\
     WizardLayoutFactory._create_run_wizard_dialog "__DONE__"
       (plan_net_done "__DONE__" PNone) 0 = Ok (dlg, 2)) /\
    (dlg.(_buttons) <> [] /\
     (lacks "options" PNone -> dlg.(_buttons) = default_buttons 0) /\
     Py.getitem PNone "options" <> Ok (PList [])).
Proof.
  eexists. split.
  - split; [ reflexivity | split; reflexivity ].
  - apply (dialog_actions_never_empty "__DONE__"
             (plan_net_done "__DONE__" PNone)
             (PDict (sections_net_done "__DONE__" PNone)) PNone 0 _ 2);
      reflexivity.
Defined.

(** C6. A terminal section that lacks [description] gives the title
    "Run wizard?" to every dialog built from it; one that lacks [options]
    builds a dialog whose buttons are exactly yes and back, in that order,
    labelled "Yes" and "Back"; an absent or empty terminal section builds
    the dialog with both defaults. *)
Theorem terminal_section_defaults :
  (forall d n dlg n',
      lacks "description" d ->
      from_done_section_definition d n = Ok (dlg, n') ->
      dlg.(_title) = PStr "Run wizard?") /\
  (forall d n,
      lacks "options" d ->
      exists dlg,
        from_done_section_definition d n = Ok (dlg, S (S n)) /\
        dlg.(_buttons) = default_buttons n /\
        map handler dlg.(_buttons) = [ yes_handler; back_handler ] /\
        map text dlg.(_buttons) = [ PStr "Yes"; PStr "Back" ]) /\
  (forall d n,
      d = PNone \/ d = PDict [] ->
      exists dlg,
        from_done_section_definition d n = Ok (dlg, S (S n)) /\
        dlg.(_title) = PStr "Run wizard?" /\
        dlg.(_buttons) = default_buttons n).
Proof.
  split; [ | split ].
  - intros d n dlg n' Hlacks H.
    apply from_done_Ok_init in H.
    destruct H as (title & buttons & m & Hinit & Htitle).
    apply init_Ok in Hinit. destruct Hinit as (_ & -> & _).
    rewrite (Htitle Hlacks). reflexivity.
  - intros d n Hlacks.
    destruct (from_done_default_buttons d n Hlacks) as (dlg & Hd & Hb & _).
    exists dlg. rewrite Hb. repeat split; assumption.
  - intros d n Hd.
    assert (Ho : lacks "options" d) by (destruct Hd as [-> | ->]; reflexivity).
    assert (Hs : lacks "description" d) by (destruct Hd as [-> | ->]; reflexivity).
    destruct (from_done_default_buttons d n Ho) as (dlg & Hrun & Hb & Ht).
    exists dlg. split; [ exact Hrun | split; [ exact (Ht Hs) | exact Hb ] ].
Qed.

Lemma terminal_section_defaults_witness :
  (lacks "description" (PDict []) /\ lacks "options" (PDict []) /\
   (PDict [] = PNone \/ PDict [] = PDict [])) /\
  exists dlg,
    from_done_section_definition (PDict []) 0 = Ok (dlg, 2) /\
    dlg.(_title) = PStr "Run wizard?" /\
    dlg.(_buttons) = default_buttons 0.
Proof.
  split.
  - split; [ reflexivity | split; [ reflexivity | right; reflexivity ] ].
  - apply (proj2 (proj2 terminal_section_defaults) (PDict []) 0).
    right; reflexivity.
Defined.

Lemma built_in_label_cases name label :
  built_in_label name = Some label ->
  (name = "yes" /\ label = "Yes") \/ (name = "back" /\ label = "Back").
Proof.
  unfold built_in_label.
  destruct (String.eqb_spec name "yes") as [-> | _].
  - intros H. injection H as <-. left. split; reflexivity.
  - destruct (String.eqb_spec name "back") as [-> | _]; [ | discriminate ].
    intros H. injection H as <-. right. split; reflexivity.
Qed.

(** What an option given as a mapping builds, for the two actions that
    have a builder: the description when it is truthy, the label of the
    action otherwise. *)
Lemma create_option_button_mapping kvs name label n :
  Py.lookup "name" kvs = Some (PStr name) ->
  built_in_label name = Some label ->
  exists b,
    create_option_button (PDict kvs) n = Ok (b, S n) /\
    b.(text) = (if Py.truthy (Py.dict_get kvs "description")
                then Py.dict_get kvs "description" else PStr label).
Proof.
  intros Hname Hlabel. simpl. rewrite Hname, bind_lift_Ok.
  destruct (built_in_label_cases _ _ Hlabel) as [[-> ->] | [-> ->]].
  - rewrite create_button_yes. eexists. split; reflexivity.
  - rewrite create_button_back. eexists. split; reflexivity.
Qed.

(** C7, amended. For an option given as a mapping that names yes or back,
    the label of the button built is the [description] when that is a
    non-empty string, and the label that the action has of its own
    ("Yes", "Back") when the mapping has no [description]. *)
Theorem option_description_labels_action kvs name label n :
  Py.lookup "name" kvs = Some (PStr name) ->
  built_in_label name = Some label ->
  exists b,
    create_option_button (PDict kvs) n = Ok (b, S n) /\
    (forall descr,
        Py.lookup "description" kvs = Some (PStr descr) -> descr <> "" ->
        b.(text) = PStr descr) /\
    (Py.lookup "description" kvs = None -> b.(text) = PStr label).
Proof.
  intros Hname Hlabel.
  destruct (create_option_button_mapping kvs name label n Hname Hlabel)
    as (b & Hb & Ht).
  exists b. split; [ exact Hb | split ].
  - intros descr Hd Hne. rewrite Ht. unfold Py.dict_get. rewrite Hd. simpl.
    destruct (String.eqb_spec descr "") as [-> | _]; [ congruence | reflexivity ].
  - intros Hd. rewrite Ht. unfold Py.dict_get. rewrite Hd. reflexivity.
Qed.

Lemma option_description_labels_action_witness :
  (Py.lookup "name" [ ("name", PStr "back"); ("description", PStr "Go back") ]
   = Some (PStr "back") /\
   built_in_label "back" = Some "Back") /\
  exists b,
    create_option_button
      (PDict [ ("name", PStr "back"); ("description", PStr "Go back") ]) 0
    = Ok (b, 1) /\
    (forall descr,
        Py.lookup "description"
          [ ("name", PStr "back"); ("description", PStr "Go back") ]
        = Some (PStr descr) -> descr <> "" -> b.(text) = PStr descr) /\
    (Py.lookup "description"
       [ ("name", PStr "back"); ("description", PStr "Go back") ] = None ->
     b.(text) = PStr "Back").
Proof.
  split; [ split; reflexivity | ].
  apply (option_description_labels_action
           [ ("name", PStr "back"); ("description", PStr "Go back") ]
           "back" "Back" 0); reflexivity.
Defined.

(** C7 as stated fails on the empty description: the button of
    [{"name": "yes", "description": ""}] is labelled "Yes". *)
Lemma empty_description_is_not_the_label :
  exists b,
    create_option_button option_yes_empty_description 0 = Ok (b, 1) /\
    Py.getitem option_yes_empty_description "description" = Ok (PStr "") /\
    b.(text) = PStr "Yes" /\
    b.(text) <> PStr "".
Proof.
  eexists. split; [ reflexivity | ].
  split; [ reflexivity | split; [ reflexivity | discriminate ] ].
Qed.

(** A loop that raises does so at a first item, after the items before it
    were done. *)
Lemma for_each_Raise_first {A B : Type} (f : A -> Alloc B) xs :
  forall n e,
    for_each f xs n = Raise e ->
    exists earlier failing later bs m,
      xs = (earlier ++ failing :: later)%list /\
      for_each f earlier n = Ok (bs, m) /\
      f failing m = Raise e.
Proof.
  induction xs as [ | x xs IH ]; intros n e H; simpl in H; [ discriminate H | ].
  unfold bind at 1 in H.
  destruct (f x n) as [[b k] | e0] eqn:Ex.
  - unfold bind at 1 in H.
    destruct (for_each f xs k) as [[bs k'] | e1] eqn:Exs; [ discriminate H | ].
    injection H as ->.
    destruct (IH k e Exs) as (earlier & failing & later & bs & m & -> & Hearlier & Hf).
    exists (x :: earlier), failing, later, (b :: bs), m.
    split; [ reflexivity | split; [ | exact Hf ] ].
    simpl. unfold bind. rewrite Ex, Hearlier. reflexivity.
  - injection H as ->.
    exists [], x, xs, [], n. split; [ reflexivity | split; [ reflexivity | exact Ex ] ].
Qed.

(** A loop that raises on a list raises the same on any longer list. *)
Lemma for_each_Raise_app {A B : Type} (f : A -> Alloc B) xs rest n e :
  for_each f xs n = Raise e ->
  for_each f (xs ++ rest) n = Raise e.
Proof.
  intros H.
  destruct (for_each_Raise_first f xs n e H)
    as (earlier & failing & later & bs & m & -> & Hearlier & Hf).
  rewrite <- app_assoc. simpl.
  eapply for_each_Raise_at; eassumption.
Qed.

(** C5, amended. When an entry of the options names an action for which
    the factory has no builder, construction raises and no dialog is
    returned.  What it raises is [AttributeError] (the unknown kind of
    action) when the entries before that one build; otherwise it is the
    error of the first of the earlier entries that fails to build. *)
Theorem unknown_action_fails_construction d pre option post name n :
  Py.getitem d "options" = Ok (PList (pre ++ option :: post)) ->
  names_action option name ->
  no_builder name ->
  (exists e, from_done_section_definition d n = Raise e) /\
  (forall bs m,
      for_each create_option_button pre n = Ok (bs, m) ->
      from_done_section_definition d n = Raise AttributeError) /\
  (forall e,
      for_each create_option_button pre n = Raise e ->
      from_done_section_definition d n = Raise e /\
      exists earlier failing later bs m,
        pre = (earlier ++ failing :: later)%list /\
        for_each create_option_button earlier n = Ok (bs, m) /\
        create_option_button failing m = Raise e).
Proof.
  intros Hopts Hnames Hno.
  destruct (from_done_options d _ n Hopts) as (title & ->).
  assert (Hraise : forall k, create_option_button option k = Raise AttributeError)
    by (intros k; apply (create_option_button_no_builder option name k Hnames Hno)).
  split; [ | split ].
  - destruct (for_each_Raise_In create_option_button option AttributeError Hraise
                (pre ++ option :: post) n) as (e & He).
    { apply in_or_app. right. left. reflexivity. }
    exists e. unfold bind. rewrite He. reflexivity.
  - intros bs m Hpre. unfold bind.
    rewrite (for_each_Raise_at create_option_button pre option post n bs m
               AttributeError Hpre (Hraise m)).
    reflexivity.
  - intros e Hpre. split.
    + unfold bind.
      rewrite (for_each_Raise_app create_option_button pre (option :: post) n e Hpre).
      reflexivity.
    + apply (for_each_Raise_first create_option_button pre n e Hpre).
Qed.

Lemma unknown_action_fails_construction_witness :
  (Py.getitem section_unknown_action "options"
   = Ok (PList ([] ++ PStr "unknown_action" :: [])) /\
   Py.getitem section_malformed_then_unknown "options"
   = Ok (PList ([ PDict [ ("description", PStr "x") ] ]
                  ++ PStr "unknown_action" :: [])) /\
   names_action (PStr "unknown_action") "unknown_action" /\
   no_builder "unknown_action" /\
   for_each create_option_button [] 0 = Ok ([], 0) /\
   for_each create_option_button [ PDict [ ("description", PStr "x") ] ] 0
   = Raise KeyError) /\
  from_done_section_definition section_unknown_action 0 = Raise AttributeError /\
  from_done_section_definition section_malformed_then_unknown 0 = Raise KeyError.
Proof.
  assert (Hn : names_action (PStr "unknown_action") "unknown_action")
    by (left; reflexivity).
  split.
  - split; [ reflexivity | split; [ reflexivity | split; [ exact Hn | ] ] ].
    split; [ reflexivity | split; reflexivity ].
  - split.
    + apply (proj1 (proj2 (unknown_action_fails_construction section_unknown_action
                             [] (PStr "unknown_action") [] "unknown_action" 0
                             eq_refl Hn eq_refl)) [] 0).
      reflexivity.
    + apply (proj2 (proj2 (unknown_action_fails_construction
                             section_malformed_then_unknown
                             [ PDict [ ("description", PStr "x") ] ]
                             (PStr "unknown_action") [] "unknown_action" 0
                             eq_refl Hn eq_refl)) KeyError).
      reflexivity.
Defined.

(** C5 as stated fails when an earlier entry is malformed: the mapping
    without [name] raises [KeyError] before the unknown action is
    reached. *)
Lemma unknown_action_after_malformed_option :
  In (PStr "unknown_action") options_malformed_then_unknown /\
  names_action (PStr "unknown_action") "unknown_action" /\
  no_builder "unknown_action" /\
  from_done_section_definition section_malformed_then_unknown 0 = Raise KeyError /\
  from_done_section_definition section_malformed_then_unknown 0
  <> Raise AttributeError.
Proof.
  split; [ right; left; reflexivity | ].
  split; [ left; reflexivity | ].
  split; [ reflexivity | ].
  split; [ reflexivity | discriminate ].
Qed.

End DialogActions.

(** *** The layout factory *)

Section LayoutFacts.

Import WizardLayoutFactory.

Variable DONE_SECTION_NAME : string.

Lemma _create_done_section_tab_shortname kvs v :
  Py.lookup "shortname" kvs = Some v ->
  _create_done_section_tab DONE_SECTION_NAME (PDict kvs)
  = Ok (mkTab DONE_SECTION_NAME (PDict kvs)).
Proof.
  intros H. unfold _create_done_section_tab.
  destruct kvs as [ | kv kvs ]; [ discriminate | ].
  simpl Py.truthy. simpl negb. cbv iota.
  unfold Py.contains. rewrite H. reflexivity.
Qed.

Lemma _create_done_section_tab_default d :
  lacks "shortname" d ->
  _create_done_section_tab DONE_SECTION_NAME d
  = Ok (mkTab DONE_SECTION_NAME (PDict [ ("shortname", PStr "Done") ])).
Proof.
  destruct d as [ | | | | | kvs ]; simpl; try contradiction.
  - reflexivity.
  - intros H. unfold _create_done_section_tab.
    destruct kvs as [ | kv kvs ]; [ reflexivity | ].
    simpl Py.truthy. simpl negb. cbv iota.
    unfold Py.contains. rewrite H. reflexivity.
Qed.

(** C8, amended. The tab of the terminal section is built from the
    definition of the section, unchanged, when that definition has a
    [shortname]; when the definition is absent or has no [shortname] the
    tab is built from the definition [{"shortname": "Done"}] alone. *)
Theorem done_section_tab_definition d :
  (forall kvs v,
      d = PDict kvs -> Py.lookup "shortname" kvs = Some v ->
      _create_done_section_tab DONE_SECTION_NAME d
      = Ok (mkTab DONE_SECTION_NAME d)) /\
  (lacks "shortname" d ->
   _create_done_section_tab DONE_SECTION_NAME d
   = Ok (mkTab DONE_SECTION_NAME (PDict [ ("shortname", PStr "Done") ]))).
Proof.
  split.
  - intros kvs v -> H. eapply _create_done_section_tab_shortname; exact H.
  - apply _create_done_section_tab_default.
Qed.

(** The loop of [_create_sections] appends, for each section in turn, its
    tab to the tabs and its body to the bodies. *)
Lemma sections_loop_Ok dlg items :
  forall tabs0 bodies0 tabs1 bodies1,
    sections_loop DONE_SECTION_NAME dlg items tabs0 bodies0 = Ok (tabs1, bodies1) ->
    exists tabs,
      Forall2 (tab_for DONE_SECTION_NAME) items tabs /\
      tabs1 = (tabs0 ++ map SectionTab tabs)%list /\
      bodies1 = (bodies0 ++ map (body_for DONE_SECTION_NAME dlg) items)%list.
Proof.
  induction items as [ | [name def] rest IH ]; intros tabs0 bodies0 tabs1 bodies1 H.
  - simpl in H. injection H as <- <-. exists [].
    split; [ constructor | ]. simpl. rewrite !app_nil_r. split; reflexivity.
  - simpl in H. unfold body_for, tab_for.
    destruct (String.eqb name DONE_SECTION_NAME) eqn:E.
    + destruct (_create_done_section_tab DONE_SECTION_NAME def) as [ tab | e ] eqn:Et;
        [ | discriminate ].
      simpl in H. apply IH in H. destruct H as (tabs & Hall & -> & ->).
      exists (tab :: tabs). split; [ | split ].
      * constructor; [ simpl; rewrite E; exact Et | exact Hall ].
      * rewrite <- app_assoc. reflexivity.
      * simpl. rewrite E. rewrite <- app_assoc. reflexivity.
    + apply IH in H. destruct H as (tabs & Hall & -> & ->).
      exists (_create_section_tab name def :: tabs). split; [ | split ].
      * constructor; [ simpl; rewrite E; reflexivity | exact Hall ].
      * rewrite <- app_assoc. reflexivity.
      * simpl. rewrite E. rewrite <- app_assoc. reflexivity.
Qed.

(** The loop succeeds when the definition of every section is absent or
    a mapping. *)
Lemma sections_loop_total dlg items :
  Forall (fun section => snd section = PNone \/ exists kvs, snd section = PDict kvs)
         items ->
  forall tabs0 bodies0,
    exists lists, sections_loop DONE_SECTION_NAME dlg items tabs0 bodies0 = Ok lists.
Proof.
  induction 1 as [ | [name def] rest Hdef _ IH ]; intros tabs0 bodies0.
  - eexists. reflexivity.
  - simpl. destruct (String.eqb name DONE_SECTION_NAME).
    + assert (Ht : exists tab, _create_done_section_tab DONE_SECTION_NAME def = Ok tab).
      { simpl in Hdef. destruct Hdef as [-> | (kvs & ->)].
        - eexists. reflexivity.
        - destruct (Py.lookup "shortname" kvs) as [ v | ] eqn:E.
          + eexists. eapply _create_done_section_tab_shortname; exact E.
          + eexists. apply _create_done_section_tab_default. exact E. }
      destruct Ht as (tab & ->). simpl. apply IH.
    + apply IH.
Qed.

Lemma _create_sections_total definition sections dlg :
  Py.getitem definition "plan" = Ok (PDict sections) ->
  Forall (fun section => snd section = PNone \/ exists kvs, snd section = PDict kvs)
         sections ->
  exists c, _create_sections DONE_SECTION_NAME definition dlg = Ok c.
Proof.
  intros Hplan Hall. unfold _create_sections. rewrite Hplan. simpl.
  destruct (sections_loop_total dlg sections Hall [] []) as (lists & ->).
  eexists. reflexivity.
Qed.

Lemma tab_for_name section tab :
  tab_for DONE_SECTION_NAME section tab -> tab.(tab_name) = fst section.
Proof.
  unfold tab_for.
  destruct (String.eqb_spec (fst section) DONE_SECTION_NAME) as [ E | _ ].
  - unfold _create_done_section_tab.
    destruct (if negb (Py.truthy (snd section)) then Ok true
              else rbind (Py.contains "shortname" (snd section))
                         (fun present => Ok (negb present))) as [ r | e ];
      simpl; [ | discriminate ].
    intros H. injection H as <-. simpl. symmetry. exact E.
  - intros ->. reflexivity.
Qed.

(** What [_create_done_section_tab] does, for a definition of any type. *)
Lemma _create_done_section_tab_cases d :
  match _create_done_section_tab DONE_SECTION_NAME d with
  | Ok tab =>
      tab.(tab_name) = DONE_SECTION_NAME /\
      Py.contains "shortname" tab.(tab_definition) = Ok true /\
      (tab.(tab_definition) = d \/
       tab.(tab_definition) = PDict [ ("shortname", PStr "Done") ])
  | Raise e => e = TypeError /\ truthy_scalar d
  end.
Proof.
  unfold _create_done_section_tab.
  destruct d as [ | b | z | s | items | kvs ].
  - simpl. repeat split. right. reflexivity.
  - destruct b; simpl.
    + split; [ reflexivity | left; reflexivity ].
    + repeat split. right. reflexivity.
  - change (Py.truthy (PInt z)) with (negb (Z.eqb z 0)).
    destruct (Z.eqb_spec z 0) as [ -> | Hz ]; simpl.
    + repeat split. right. reflexivity.
    + split; [ reflexivity | right; exists z; split; [ reflexivity | exact Hz ] ].
  - change (Py.truthy (PStr s)) with (negb (String.eqb s "")).
    destruct (String.eqb s ""); simpl.
    + repeat split. right. reflexivity.
    + destruct (Py.is_substring "shortname" s) eqn:E; simpl.
      * rewrite E. repeat split. left. reflexivity.
      * repeat split. right. reflexivity.
  - destruct items as [ | x items ]; [ simpl; repeat split; right; reflexivity | ].
    change (Py.truthy (PList (x :: items))) with true.
    cbn [negb]. unfold Py.contains at 1. cbn [rbind].
    destruct (existsb (Py.eq_str "shortname") (x :: items)) eqn:E; cbn [negb].
    + cbn [tab_name tab_definition]. unfold Py.contains. rewrite E.
      repeat split. left. reflexivity.
    + simpl. repeat split. right. reflexivity.
  - destruct kvs as [ | kv kvs ]; [ simpl; repeat split; right; reflexivity | ].
    change (Py.truthy (PDict (kv :: kvs))) with true.
    cbn [negb]. unfold Py.contains at 1. cbn [rbind].
    destruct (Py.lookup "shortname" (kv :: kvs)) as [ v | ] eqn:E; cbn [negb].
    + cbn [tab_name tab_definition]. unfold Py.contains. rewrite E.
      repeat split. left. reflexivity.
    + simpl. repeat split. right. reflexivity.
Qed.


Lemma Forall2_nth_error {A B : Type} (R : A -> B -> Prop) l1 l2 :
  Forall2 R l1 l2 ->
  forall i a, nth_error l1 i = Some a ->
    exists b, nth_error l2 i = Some b /\ R a b.
Proof.
  induction 1 as [ | x y l1 l2 Hxy _ IH ]; intros i a Hi.
  - destruct i; discriminate Hi.
  - destruct i as [ | i ]; simpl in Hi.
    + injection Hi as <-. exists y. split; [ reflexivity | exact Hxy ].
    + apply IH, Hi.
Qed.

(** C10. For every plan, the first column that [_create_sections] builds
    holds one tab per section, named after the sections in the order of
    the plan, followed by a single spacer, hence one child more than the
    plan has sections; the second column holds the body of each section
    in that order, followed by the details panel and then the toolbar.
    Position by position: the body of a section is built from the name and
    the definition of that section, and is the dialog for the terminal
    section; the tab of a section is built from its name and definition,
    and for the terminal section from its definition or from
    [{"shortname": "Done"}]. *)
Theorem sections_columns definition sections dlg c :
  Py.getitem definition "plan" = Ok (PDict sections) ->
  _create_sections DONE_SECTION_NAME definition dlg = Ok c ->
  exists tabs bodies,
    c = VSplit
          [ HSplit (map Widget (map SectionTab tabs ++ [Spacer])%list);
            HSplit (map Widget
                      (bodies ++
                         [WizardDetailsPanel_new; DetailPanelToolbarView_new])%list) ]
          None /\
    map tab_name tabs = map fst sections /\
    length (map SectionTab tabs ++ [Spacer])%list = S (length sections) /\
    length bodies = length sections /\
    (forall i name section_definition,
        nth_error sections i = Some (name, section_definition) ->
        nth_error bodies i
        = Some (if String.eqb name DONE_SECTION_NAME
                then Dialog dlg
                else SectionBody {| body_name := name;
                                    body_definition := section_definition |}) /\
        exists tab,
          nth_error tabs i = Some tab /\
          tab.(tab_name) = name /\
          (if String.eqb name DONE_SECTION_NAME
           then tab.(tab_definition) = section_definition \/
                tab.(tab_definition) = PDict [ ("shortname", PStr "Done") ]
           else tab.(tab_definition) = section_definition)) /\
    bodies = map (body_for DONE_SECTION_NAME dlg) sections /\
    Forall2 (tab_for DONE_SECTION_NAME) sections tabs.
Proof.
  intros Hplan H. unfold _create_sections in H. rewrite Hplan in H.
  simpl in H.
  destruct (sections_loop DONE_SECTION_NAME dlg sections [] [])
    as [ [tabs1 bodies1] | e ] eqn:El; [ | discriminate ].
  simpl in H. injection H as <-.
  apply sections_loop_Ok in El. destruct El as (tabs & Hall & -> & ->).
  exists tabs, (map (body_for DONE_SECTION_NAME dlg) sections).
  simpl. split; [ reflexivity | ].
  split; [ | split; [ | split; [ apply length_map | split; [ | split;
    [ reflexivity | exact Hall ] ] ] ] ].
  - clear -Hall. induction Hall as [ | s t ss ts Hst _ IH ]; [ reflexivity | ].
    simpl. rewrite IH, (tab_for_name _ _ Hst). reflexivity.
  - rewrite length_app, length_map. simpl.
    rewrite <- (Forall2_length Hall). lia.
  - intros i name def Hi. split.
    + rewrite nth_error_map, Hi. reflexivity.
    + destruct (Forall2_nth_error _ _ _ Hall i _ Hi) as (tab & Htab & Hfor).
      exists tab. split; [ exact Htab | ].
      split; [ apply (tab_for_name _ _ Hfor) | ].
      unfold tab_for in Hfor. simpl in Hfor.
      destruct (String.eqb name DONE_SECTION_NAME).
      * pose proof (_create_done_section_tab_cases def) as Hcases.
        rewrite Hfor in Hcases. tauto.
      * rewrite Hfor. reflexivity.
Qed.

End LayoutFacts.

Lemma sections_columns_witness :
  exists c,
    (Py.getitem (plan_net_done "__DONE__" PNone) "plan"
     = Ok (PDict (sections_net_done "__DONE__" PNone)) /\
     WizardLayoutFactory._create_sections "__DONE__"
       (plan_net_done "__DONE__" PNone)
       dialog_by_default = Ok c) /\
    exists tabs bodies,
      c = VSplit
            [ HSplit (map Widget (map SectionTab tabs ++ [Spacer])%list);
              HSplit (map Widget
                        (bodies ++
                           [WizardDetailsPanel_new; DetailPanelToolbarView_new])%list) ]
            None /\
      map tab_name tabs = map fst (sections_net_done "__DONE__" PNone) /\
      length (map SectionTab tabs ++ [Spacer])%list
      = S (length (sections_net_done "__DONE__" PNone)) /\
      length bodies = length (sections_net_done "__DONE__" PNone) /\
      (forall i name section_definition,
          nth_error (sections_net_done "__DONE__" PNone) i
          = Some (name, section_definition) ->
          nth_error bodies i
          = Some (if String.eqb name "__DONE__"
                  then Dialog dialog_by_default
                  else SectionBody {| body_name := name;
                                      body_definition := section_definition |}) /\
          exists tab,
            nth_error tabs i = Some tab /\
            tab.(tab_name) = name /\
            (if String.eqb name "__DONE__"
             then tab.(tab_definition) = section_definition \/
                  tab.(tab_definition) = PDict [ ("shortname", PStr "Done") ]
             else tab.(tab_definition) = section_definition)) /\
      bodies = map (body_for "__DONE__" dialog_by_default)
                   (sections_net_done "__DONE__" PNone) /\
      Forall2 (tab_for "__DONE__") (sections_net_done "__DONE__" PNone) tabs.
Proof.
  eexists. split.
  - split; reflexivity.
  - apply (sections_columns "__DONE__" (plan_net_done "__DONE__" PNone)
             (sections_net_done "__DONE__" PNone));
      reflexivity.
Defined.

Lemma done_section_tab_definition_witness :
  (lacks "shortname" section_finish /\
   Py.lookup "shortname" [ ("shortname", PStr "Finish"); ("description", PStr "Finish?") ]
   = Some (PStr "Finish")) /\
  WizardLayoutFactory._create_done_section_tab "__DONE__" section_finish
  = Ok (mkTab "__DONE__" (PDict [ ("shortname", PStr "Done") ])) /\
  WizardLayoutFactory._create_done_section_tab "__DONE__"
    (PDict [ ("shortname", PStr "Finish"); ("description", PStr "Finish?") ])
  = Ok (mkTab "__DONE__"
          (PDict [ ("shortname", PStr "Finish"); ("description", PStr "Finish?") ])).
Proof.
  split; [ split; reflexivity | split ].
  - apply (proj2 (done_section_tab_definition "__DONE__" section_finish)).
    reflexivity.
  - apply (proj1 (done_section_tab_definition "__DONE__"
                    (PDict [ ("shortname", PStr "Finish");
                             ("description", PStr "Finish?") ]))
             _ (PStr "Finish") eq_refl).
    reflexivity.
Defined.

(** C8 as stated fails on a terminal section with a description and no
    [shortname]: the tab is built from [{"shortname": "Done"}], and the
    description is not among the fields that it receives. *)
Lemma done_section_tab_drops_other_fields :
  exists tab,
    WizardLayoutFactory._create_done_section_tab "__DONE__" section_description_only
    = Ok tab /\
    Py.getitem section_description_only "description" = Ok (PStr "Finish?") /\
    Py.getitem tab.(tab_definition) "description" = Raise KeyError /\
    tab.(tab_definition) = PDict [ ("shortname", PStr "Done") ].
Proof.
  eexists. split; [ reflexivity | ].
  split; [ reflexivity | split; reflexivity ].
Qed.

(** *** The running application *)

(** [windows.index] finds each window of a list without repetition at its
    own position. *)
Lemma index_of_nth windows :
  NoDup windows ->
  forall i d, i < length windows -> index_of (nth i windows d) windows = Some i.
Proof.
  induction 1 as [ | w ws Hnotin Hnodup IH ]; intros i d Hi; simpl in Hi; [ lia | ].
  destruct i as [ | i ]; simpl.
  - rewrite Nat.eqb_refl. reflexivity.
  - destruct (Nat.eqb_spec w (nth i ws d)) as [ E | _ ].
    + exfalso. apply Hnotin. rewrite E. apply nth_In. lia.
    + rewrite IH by lia. reflexivity.
Qed.

Lemma nth_pred_length_last {A : Type} (l : list A) (d d' : A) :
  l <> [] -> nth (length l - 1) l d = last l d'.
Proof.
  induction l as [ | x l IH ]; [ congruence | intros _ ].
  destruct l as [ | y l ]; [ reflexivity | ].
  transitivity (nth (length (y :: l) - 1) (y :: l) d);
    [ | apply IH; discriminate ].
  replace (length (x :: y :: l) - 1) with (S (length (y :: l) - 1))
    by (simpl; lia).
  reflexivity.
Qed.

Lemma last_map_window (buttons : list Button) (b : Button) :
  last (map window buttons) b.(window) = (last buttons b).(window).
Proof.
  induction buttons as [ | x l IH ]; [ reflexivity | ].
  destruct l as [ | y l ]; [ reflexivity | ].
  change (last (map window (x :: y :: l)) (window b))
    with (last (map window (y :: l)) (window b)).
  rewrite IH. reflexivity.
Qed.

(** [Layout.focus_next] and [Layout.focus_previous] from the [i]-th of
    the visible focusable windows: one step around the ring. *)
Lemma focus_next_from {Traverser : Type} (app : Application Traverser) i d :
  NoDup app.(visible_focusable_windows) ->
  i < length app.(visible_focusable_windows) ->
  app.(current_window) = nth i app.(visible_focusable_windows) d ->
  (Layout_focus_next app).(current_window)
  = nth ((i + 1) mod length app.(visible_focusable_windows))
        app.(visible_focusable_windows) d.
Proof.
  intros Hnodup Hi Hcur. unfold Layout_focus_next.
  assert (Hidx : index_of app.(current_window) app.(visible_focusable_windows)
                 = Some i)
    by (rewrite Hcur; apply index_of_nth; assumption).
  rewrite Hidx.
  destruct (visible_focusable_windows app) as [ | w ws ] eqn:E;
    [ simpl in Hi; lia | ].
  unfold focus. cbn [current_window]. apply nth_indep.
  apply Nat.mod_upper_bound. discriminate.
Qed.

Lemma focus_previous_from {Traverser : Type} (app : Application Traverser) i d :
  NoDup app.(visible_focusable_windows) ->
  i < length app.(visible_focusable_windows) ->
  app.(current_window) = nth i app.(visible_focusable_windows) d ->
  (Layout_focus_previous app).(current_window)
  = nth ((i + length app.(visible_focusable_windows) - 1)
           mod length app.(visible_focusable_windows))
        app.(visible_focusable_windows) d.
Proof.
  intros Hnodup Hi Hcur. unfold Layout_focus_previous.
  assert (Hidx : index_of app.(current_window) app.(visible_focusable_windows)
                 = Some i)
    by (rewrite Hcur; apply index_of_nth; assumption).
  rewrite Hidx.
  destruct (visible_focusable_windows app) as [ | w ws ] eqn:E;
    [ simpl in Hi; lia | ].
  unfold focus. cbn [current_window]. apply nth_indep.
  apply Nat.mod_upper_bound. discriminate.
Qed.

Section HostFacts.

Variable Traverser : Type.
Variable has_no_remaining_prompts : Traverser -> bool.
Variable move_to_previous_prompt : Application Traverser -> Application Traverser.
Variable details_visible_now : Application Traverser -> bool.
Variable prompt_has_details_now : Application Traverser -> bool.
Variable STYLE : string.
Variable SPACING : string.

Local Abbreviation shown_now :=
  (shown has_no_remaining_prompts details_visible_now prompt_has_details_now).
Local Abbreviation press_key :=
  (press has_no_remaining_prompts details_visible_now prompt_has_details_now).
Local Abbreviation back := (run_handler move_to_previous_prompt back_handler).

(** C1. On every frame, the container of a dialog that was built shows
    its content exactly when the traverser reports that no prompts remain,
    and so it does on the frame that follows the handler of back.  The
    dialog has no field of its own for it: its container is conditional on
    the filter that asks the traverser. *)
Theorem dialog_visible_iff_no_remaining_prompts title buttons n dlg n' app :
  RunWizardDialog.__init__ title buttons n = Ok (dlg, n') ->
  shown_now dlg.(RunWizardDialog.container) app
  = has_no_remaining_prompts app.(traverser) /\
  shown_now dlg.(RunWizardDialog.container) (back app)
  = has_no_remaining_prompts (back app).(traverser) /\
  exists content,
    dlg.(RunWizardDialog.container)
    = ConditionalContainer content Condition_is_visible.
Proof.
  intros H. apply init_Ok in H. destruct H as (_ & _ & _ & content & Hc).
  rewrite Hc. split; [ reflexivity | split; [ reflexivity | ] ].
  exists content. reflexivity.
Qed.

(** The titles of the details panel and of the toolbar agree while the
    title of the application is unset or a non-empty string. *)
Lemma details_titles_agree (app : Application Traverser) :
  app.(details_title) <> Some "" ->
  WizardDetailsPanel_get_title app = DetailPanelToolbarView_title app.
Proof.
  unfold WizardDetailsPanel_get_title, DetailPanelToolbarView_title,
    Py.getattr_default, Py.or_str.
  destruct (details_title app) as [ s | ]; [ | reflexivity ].
  intros Hne. destruct (String.eqb_spec s "") as [-> | _ ]; [ congruence | reflexivity ].
Qed.

(** C9 at the empty title. When the application has its title set to the
    empty string, the details panel shows "Details panel" while the toolbar
    puts the empty string in its two hints. *)
Theorem details_titles_differ_on_empty_title (t : Traverser) w ws r :
  WizardDetailsPanel_get_title (mkApp t (Some "") w ws r) = "Details panel" /\
  DetailPanelToolbarView_title (mkApp t (Some "") w ws r) = "" /\
  DetailPanelToolbarView_help_text STYLE SPACING (mkApp t (Some "") w ws r)
  = STYLE ++ "[F2]</style> Switch to " ++ "" ++ SPACING ++
    STYLE ++ "[F3]</style> Show/Hide " ++ "" /\
  WizardDetailsPanel_get_title (mkApp t (Some "") w ws r)
  <> DetailPanelToolbarView_title (mkApp t (Some "") w ws r).
Proof.
  split; [ reflexivity | split; [ reflexivity | split; [ reflexivity | ] ] ].
  discriminate.
Qed.

(** The bindings of a non-empty list of buttons, key by key. *)
Lemma press_buttons_key_bindings first rest kb app :
  RunWizardDialog._create_buttons_key_bindings (first :: rest) = Ok kb ->
  press_key kb Left app
  = (if Nat.eqb app.(current_window) first.(window)
     then app else Layout_focus_previous app) /\
  press_key kb Right app
  = (if Nat.eqb app.(current_window) (last (first :: rest) first).(window)
     then app else Layout_focus_next app) /\
  press_key kb Tab app = Layout_focus_next app /\
  press_key kb BackTab app = Layout_focus_previous app.
Proof.
  unfold RunWizardDialog._create_buttons_key_bindings. intros H.
  injection H as <-. unfold press, kb_add, active. simpl.
  destruct (Nat.eqb (current_window app) (window first));
    destruct (Nat.eqb (current_window app)
                (window (match rest with [] => first | _ :: _ => last rest first end)));
    repeat split; reflexivity.
Qed.


(** Away from the ends, Right and Left move the focus by one button. *)
Lemma focus_keys_inside first rest kb app i :
  RunWizardDialog._create_buttons_key_bindings (first :: rest) = Ok kb ->
  NoDup (map window (first :: rest)) ->
  app.(visible_focusable_windows) = map window (first :: rest) ->
  S i < length (first :: rest) ->
  (app.(current_window) = nth i (map window (first :: rest)) 0 ->
   (press_key kb Right app).(current_window)
   = nth (S i) (map window (first :: rest)) 0) /\
  (app.(current_window) = nth (S i) (map window (first :: rest)) 0 ->
   (press_key kb Left app).(current_window)
   = nth i (map window (first :: rest)) 0).
Proof.
  intros Hkb Hnodup Hring Hi.
  destruct (press_buttons_key_bindings first rest kb app Hkb)
    as (HL & HR & _ & _).
  set (buttons := first :: rest) in *.
  set (windows := map window buttons) in *.
  assert (Hlen : length windows = length buttons)
    by (unfold windows; apply length_map).
  assert (Hlast : (last buttons first).(window) = nth (length windows - 1) windows 0).
  { rewrite (nth_pred_length_last windows 0 first.(window))
      by (unfold windows, buttons; discriminate).
    unfold windows. symmetry. apply last_map_window. }
  assert (Hdistinct : forall a b, a < length windows -> b < length windows ->
                        a <> b -> nth a windows 0 <> nth b windows 0).
  { intros a b Ha Hb Hab E. apply Hab.
    apply (proj1 (NoDup_nth windows 0) Hnodup a b Ha Hb E). }
  split; intros Hcur.
  - rewrite HR, Hlast, Hcur.
    destruct (Nat.eqb_spec (nth i windows 0) (nth (length windows - 1) windows 0))
      as [ E | _ ].
    + exfalso. revert E. apply Hdistinct; lia.
    + rewrite (focus_next_from app i 0); rewrite ?Hring; fold windows;
        [ | exact Hnodup | lia | exact Hcur ].
      rewrite Nat.mod_small by lia. f_equal. lia.
  - rewrite HL, Hcur.
    change (window first) with (nth 0 windows 0).
    destruct (Nat.eqb_spec (nth (S i) windows 0) (nth 0 windows 0)) as [ E | _ ].
    + exfalso. revert E. apply Hdistinct; lia.
    + rewrite (focus_previous_from app (S i) 0); rewrite ?Hring; fold windows;
        [ | exact Hnodup | lia | exact Hcur ].
      replace (S i + length windows - 1) with (i + 1 * length windows) by lia.
      rewrite Nat.Div0.mod_add, Nat.mod_small by lia. reflexivity.
Qed.

End HostFacts.

Lemma dialog_visible_iff_no_remaining_prompts_witness :
  exists dlg,
    RunWizardDialog.__init__ None None 0 = Ok (dlg, 2) /\
    (shown example_has_no_remaining_prompts example_condition example_condition
       dlg.(RunWizardDialog.container) (example_app 1)
     = example_has_no_remaining_prompts (example_app 1).(traverser) /\
     shown example_has_no_remaining_prompts example_condition example_condition
       dlg.(RunWizardDialog.container)
       (run_handler example_move_to_previous_prompt back_handler (example_app 1))
     = example_has_no_remaining_prompts
         (run_handler example_move_to_previous_prompt back_handler
            (example_app 1)).(traverser) /\
     exists content,
       dlg.(RunWizardDialog.container)
       = ConditionalContainer content Condition_is_visible).
Proof.
  eexists. split; [ reflexivity | ].
  apply (dialog_visible_iff_no_remaining_prompts bool
           example_has_no_remaining_prompts example_move_to_previous_prompt
           example_condition example_condition None None 0 _ 2 (example_app 1)).
  reflexivity.
Defined.

(** The windows of the buttons of a dialog are pairwise distinct. *)
Lemma for_each_windows {A : Type} (f : A -> Alloc Button) :
  (forall x n b n', f x n = Ok (b, n') -> n' = S n /\ b.(window) = n) ->
  forall xs n bs n',
    for_each f xs n = Ok (bs, n') -> map window bs = seq n (length xs).
Proof.
  intros Hf xs. induction xs as [ | x xs IH ]; intros n bs n' H; simpl in H.
  - apply ret_Ok in H. destruct H as [-> _]. reflexivity.
  - apply bind_Ok in H. destruct H as (b & m & Hb & H).
    apply bind_Ok in H. destruct H as (bs' & m' & Hbs & H).
    apply ret_Ok in H. destruct H as [-> _].
    destruct (Hf _ _ _ _ Hb) as [-> Hw].
    simpl. rewrite Hw, (IH _ _ _ Hbs). reflexivity.
Qed.

Lemma from_done_windows_NoDup d n dlg n' :
  RunWizardDialog.from_done_section_definition d n = Ok (dlg, n') ->
  NoDup (map window dlg.(RunWizardDialog._buttons)).
Proof.
  unfold RunWizardDialog.from_done_section_definition.
  assert (Hdefault : forall title k dialog k',
             RunWizardDialog.__init__ title None k = Ok (dialog, k') ->
             NoDup (map window dialog.(RunWizardDialog._buttons))).
  { intros title k dialog k' H.
    destruct (init_default_buttons title k) as (dialog' & Hd & Hb & _).
    rewrite Hd in H. injection H as <- _. rewrite Hb. simpl.
    repeat constructor; simpl; intuition lia. }
  assert (Hloop : forall items k bs k',
             for_each RunWizardDialog.create_option_button items k = Ok (bs, k') ->
             NoDup (map window bs)).
  { intros items k bs k' H.
    rewrite (for_each_windows _ create_option_button_fresh _ _ _ _ H).
    apply seq_NoDup. }
  destruct (Py.truthy d); [ | apply Hdefault ].
  intros H.
  apply bind_Ok in H. destruct H as (has_description & m1 & _ & H).
  apply bind_Ok in H. destruct H as (title & m2 & _ & H).
  apply bind_Ok in H. destruct H as (has_options & m3 & _ & H).
  apply bind_Ok in H. destruct H as (buttons & m4 & Hbuttons & H).
  destruct has_options.
  - apply bind_Ok in Hbuttons. destruct Hbuttons as (options & m5 & _ & Hbuttons).
    apply bind_Ok in Hbuttons. destruct Hbuttons as (items & m6 & _ & Hbuttons).
    apply bind_Ok in Hbuttons. destruct Hbuttons as (bs & m7 & Hbs & Hbuttons).
    apply ret_Ok in Hbuttons. destruct Hbuttons as [-> _].
    apply init_Ok in H. destruct H as (_ & _ & Hsame & _).
    destruct (Hsame bs eq_refl) as [-> _].
    eapply Hloop; exact Hbs.
  - apply ret_Ok in Hbuttons. destruct Hbuttons as [-> _].
    eapply Hdefault; exact H.
Qed.



(** *** The scenarios of the specification, evaluated *)

(** Scenario A: a plan with one section and an empty terminal section. *)
Example scenario_A :
  exists layout,
    WizardLayoutFactory.create_wizard_layout "__DONE__"
      (plan_net_done "__DONE__" (PDict [])) 0 = Ok (layout, 2) /\
    layout.(run_wizard_dialog).(RunWizardDialog._title) = PStr "Run wizard?" /\
    map text layout.(run_wizard_dialog).(RunWizardDialog._buttons)
    = [ PStr "Yes"; PStr "Back" ] /\
    exists bodies,
      layout.(layout_container)
      = HSplit
          [ Widget (TitleLabel (PStr "Setup"));
            VSplit
              [ HSplit
                  [ Widget (SectionTab
                              (mkTab "net" (PDict [ ("shortname", PStr "Network") ])));
                    Widget (SectionTab
                              (mkTab "__DONE__" (PDict [ ("shortname", PStr "Done") ])));
                    Widget Spacer ];
                HSplit bodies ]
              None;
            Widget HorizontalLine ].
Proof.
  eexists. split; [ reflexivity | ].
  split; [ reflexivity | split; [ reflexivity | ] ].
  eexists. reflexivity.
Qed.

(** Scenario B: a description and two options, the second with a label. *)
Example scenario_B :
  exists dlg,
    RunWizardDialog.from_done_section_definition section_finish 0 = Ok (dlg, 2) /\
    dlg.(RunWizardDialog._title) = PStr "Finish?" /\
    map text dlg.(RunWizardDialog._buttons) = [ PStr "Yes"; PStr "Go back" ].
Proof. eexists. split; [ reflexivity | split; reflexivity ]. Qed.

(** Scenario C: an option that names no action. *)
Example scenario_C :
  RunWizardDialog.from_done_section_definition section_unknown_action 0
  = Raise AttributeError.
Proof. reflexivity. Qed.

(** The name "dialog" finds the helper [_create_dialog_button], whose call
    without a handler raises [TypeError]. *)
Example option_named_dialog :
  RunWizardDialog.from_done_section_definition
    (PDict [ ("options", PList [ PStr "dialog" ]) ]) 0
  = Raise TypeError.
Proof. reflexivity. Qed.

(** An empty list of options raises [IndexError]. *)
Example options_empty :
  RunWizardDialog.from_done_section_definition
    (PDict [ ("options", PList []) ]) 0
  = Raise IndexError.
Proof. reflexivity. Qed.

(* ================================================================== *)
(** ** Further properties of the code *)

(** *** The button factory and the buttons of a dialog *)

Section MoreDialogFacts.

Import RunWizardDialogButtonFactory RunWizardDialog.

(** X1. [create_button] returns a button only for the names "yes" and
    "back".  The button is a fresh object with the text cursor hidden; it
    carries the handler of its action, and its label is the text passed
    when that is truthy and "Yes" or "Back" otherwise, so the label is
    never empty. *)
Theorem create_button_returns button_name text0 n b n' :
  create_button button_name text0 n = Ok (b, n') ->
  n' = S n /\ b.(window) = n /\ b.(always_hide_cursor) = true /\
  Py.truthy b.(text) = true /\
  ((button_name = PStr "yes" /\ b.(handler) = yes_handler /\
    b.(text) = (if Py.truthy text0 then text0 else PStr "Yes")) \/
   (button_name = PStr "back" /\ b.(handler) = back_handler /\
    b.(text) = (if Py.truthy text0 then text0 else PStr "Back"))).
Proof.
  intros H.
  destruct (create_button_fresh _ _ _ _ _ H) as (Hn & Hw & Hc).
  split; [ exact Hn | split; [ exact Hw | split; [ exact Hc | ] ] ].
  destruct (create_button_Ok_name _ _ _ _ _ H) as [-> | ->].
  - rewrite create_button_yes in H. injection H as <- _. simpl.
    split; [ | left; repeat split ].
    destruct (Py.truthy text0) eqn:E; [ exact E | reflexivity ].
  - rewrite create_button_back in H. injection H as <- _. simpl.
    split; [ | right; repeat split ].
    destruct (Py.truthy text0) eqn:E; [ exact E | reflexivity ].
Qed.

Lemma create_button_returns_witness :
  exists b,
    create_button (PStr "back") (PStr "") 3 = Ok (b, 4) /\
    (4 = S 3 /\ b.(window) = 3 /\ b.(always_hide_cursor) = true /\
     Py.truthy b.(text) = true /\
     ((PStr "back" = PStr "yes" /\ b.(handler) = yes_handler /\
       b.(text) = (if Py.truthy (PStr "") then PStr "" else PStr "Yes")) \/
      (PStr "back" = PStr "back" /\ b.(handler) = back_handler /\
       b.(text) = (if Py.truthy (PStr "") then PStr "" else PStr "Back")))).
Proof.
  eexists. split; [ reflexivity | ].
  apply (create_button_returns (PStr "back") (PStr "") 3 _ 4). reflexivity.
Defined.

Lemma create_option_button_is_create_button option n b n' :
  create_option_button option n = Ok (b, n') ->
  exists button_name text0, create_button button_name text0 n = Ok (b, n').
Proof.
  intros H. destruct option; simpl in H; eauto.
  apply bind_Ok in H. destruct H as (name & m & Hname & H).
  apply lift_Ok in Hname. destruct Hname as [_ ->]. eauto.
Qed.

Lemma for_each_Forall {A B : Type} (f : A -> Alloc B) (P : B -> Prop) :
  (forall x n b n', f x n = Ok (b, n') -> P b) ->
  forall xs n bs n', for_each f xs n = Ok (bs, n') -> Forall P bs.
Proof.
  intros Hf xs. induction xs as [ | x xs IH ]; intros n bs n' H; simpl in H.
  - apply ret_Ok in H. destruct H as [-> _]. constructor.
  - apply bind_Ok in H. destruct H as (b & m & Hb & H).
    apply bind_Ok in H. destruct H as (bs' & m' & Hbs & H).
    apply ret_Ok in H. destruct H as [-> _].
    constructor; [ eapply Hf; exact Hb | eapply IH; exact Hbs ].
Qed.

(** The buttons of a dialog that was built come from one run of the loop
    over some items: the options, or the two default names. *)
Lemma from_done_buttons_origin d n dlg n' :
  from_done_section_definition d n = Ok (dlg, n') ->
  exists items,
    for_each create_option_button items n = Ok (dlg.(_buttons), n').
Proof.
  assert (Hdefault : forall title k dialog k',
             __init__ title None k = Ok (dialog, k') ->
             for_each create_option_button [PStr "yes"; PStr "back"] k
             = Ok (dialog.(_buttons), k')).
  { intros title k dialog k' H.
    destruct (init_default_buttons title k) as (dialog' & Hd & Hb & _).
    rewrite Hd in H. injection H as <- <-. rewrite Hb. reflexivity. }
  unfold from_done_section_definition.
  destruct (Py.truthy d);
    [ | intros H; eexists; eapply Hdefault; exact H ].
  intros H.
  apply bind_Ok in H. destruct H as (has_description & m1 & Hm1 & H).
  apply lift_Ok in Hm1. destruct Hm1 as [_ ->].
  apply bind_Ok in H. destruct H as (title & m2 & Htitle & H).
  assert (m2 = n) as ->.
  { destruct has_description.
    - apply bind_Ok in Htitle. destruct Htitle as (x & k & Hx & Hr).
      apply lift_Ok in Hx. destruct Hx as [_ ->].
      apply ret_Ok in Hr. tauto.
    - apply ret_Ok in Htitle. tauto. }
  apply bind_Ok in H. destruct H as (has_options & m3 & Hm3 & H).
  apply lift_Ok in Hm3. destruct Hm3 as [_ ->].
  apply bind_Ok in H. destruct H as (buttons & m4 & Hbuttons & H).
  destruct has_options.
  - apply bind_Ok in Hbuttons. destruct Hbuttons as (options & m5 & Ho & Hbuttons).
    apply lift_Ok in Ho. destruct Ho as [_ ->].
    apply bind_Ok in Hbuttons. destruct Hbuttons as (items & m6 & Hi & Hbuttons).
    apply lift_Ok in Hi. destruct Hi as [_ ->].
    apply bind_Ok in Hbuttons. destruct Hbuttons as (bs & m7 & Hbs & Hbuttons).
    apply ret_Ok in Hbuttons. destruct Hbuttons as [-> ->].
    apply init_Ok in H. destruct H as (_ & _ & Hsame & _).
    destruct (Hsame bs eq_refl) as [-> ->].
    exists items. exact Hbs.
  - apply ret_Ok in Hbuttons. destruct Hbuttons as [-> ->].
    eexists. eapply Hdefault; exact H.
Qed.

(** X2. In every dialog that [from_done_section_definition] builds,
    whatever the terminal section, each button has a label that is not
    empty (truthy), hides the text cursor, and runs the handler of yes or
    of back. *)
Theorem dialog_buttons_are_well_formed d n dlg n' :
  from_done_section_definition d n = Ok (dlg, n') ->
  Forall (fun b => Py.truthy b.(text) = true /\
                   b.(always_hide_cursor) = true /\
                   (b.(handler) = yes_handler \/ b.(handler) = back_handler))
         dlg.(_buttons).
Proof.
  intros H. apply from_done_buttons_origin in H. destruct H as (items & H).
  eapply for_each_Forall; [ | exact H ].
  intros x k b k' Hx.
  apply create_option_button_is_create_button in Hx.
  destruct Hx as (name & t0 & Hx).
  destruct (create_button_fresh _ _ _ _ _ Hx) as (_ & _ & Hc).
  apply create_button_Ok_shape in Hx.
  destruct Hx as [(_ & Hh & Ht) | (_ & Hh & Ht)];
    (split; [ rewrite Ht; destruct (Py.truthy t0) eqn:E; [ exact E | reflexivity ]
            | split; [ exact Hc | auto ] ]).
Qed.

Lemma dialog_buttons_are_well_formed_witness :
  exists dlg,
    from_done_section_definition section_finish 0 = Ok (dlg, 2) /\
    Forall (fun b => Py.truthy b.(text) = true /\
                     b.(always_hide_cursor) = true /\
                     (b.(handler) = yes_handler \/ b.(handler) = back_handler))
           dlg.(_buttons).
Proof.
  eexists. split; [ reflexivity | ].
  apply (dialog_buttons_are_well_formed section_finish 0 _ 2). reflexivity.
Defined.

Lemma last_In {A : Type} (l : list A) (d : A) :
  l <> [] -> In (last l d) l.
Proof.
  induction l as [ | x l IH ]; [ congruence | intros _ ].
  destruct l as [ | y l ]; [ left; reflexivity | ].
  right. apply IH. discriminate.
Qed.

(** X3. The buttons of a dialog that was built are pairwise distinct
    objects: no two of them share a window.  So the two filters of the
    arrow keys, "the first button has the focus" and "the last button has
    the focus", speak of the same window only when the dialog has a single
    button. *)
Theorem dialog_buttons_are_distinct d n dlg n' first rest :
  from_done_section_definition d n = Ok (dlg, n') ->
  dlg.(_buttons) = first :: rest ->
  NoDup (map window dlg.(_buttons)) /\
  ((last dlg.(_buttons) first).(window) = first.(window) <-> rest = []).
Proof.
  intros H Hb. apply from_done_buttons_origin in H. destruct H as (items & H).
  pose proof (for_each_windows _ create_option_button_fresh _ _ _ _ H) as Hw.
  assert (Hnd : NoDup (map window dlg.(_buttons)))
    by (rewrite Hw; apply seq_NoDup).
  split; [ exact Hnd | ].
  rewrite Hb in *. split.
  - intros Hlast. destruct rest as [ | second rest ]; [ reflexivity | exfalso ].
    simpl map in Hnd. inversion Hnd as [ | ? ? Hnotin _ ]; subst.
    apply Hnotin. rewrite <- Hlast.
    change (In (window (last (second :: rest) first))
               (map window (second :: rest))).
    apply in_map. apply last_In. discriminate.
  - intros ->. reflexivity.
Qed.

Lemma dialog_buttons_are_distinct_witness :
  exists dlg first rest,
    (from_done_section_definition section_finish 5 = Ok (dlg, 7) /\
     dlg.(_buttons) = first :: rest) /\
    (NoDup (map window dlg.(_buttons)) /\
     ((last dlg.(_buttons) first).(window) = first.(window) <-> rest = [])).
Proof.
  eexists. eexists. eexists. split.
  - split; reflexivity.
  - apply (dialog_buttons_are_distinct section_finish 5 _ 7); reflexivity.
Defined.

(** X4. When the terminal section is a mapping with a [description], the
    title of the dialog is that value as it is, also when it is the empty
    string or null: unlike the label of a button, the title does not fall
    back to its default on a falsy value. *)
Theorem description_is_title_verbatim kvs v n dlg n' :
  Py.lookup "description" kvs = Some v ->
  from_done_section_definition (PDict kvs) n = Ok (dlg, n') ->
  dlg.(_title) = v.
Proof.
  intros Hd H.
  assert (Hne : kvs <> []) by (intros ->; discriminate Hd).
  rewrite (from_done_mapping kvs n Hne), Hd in H.
  apply bind_Ok in H. destruct H as (buttons & m & _ & H).
  apply init_Ok in H. destruct H as (_ & Ht & _). exact Ht.
Qed.

Lemma description_is_title_verbatim_witness :
  exists dlg,
    (Py.lookup "description" [ ("description", PStr "") ] = Some (PStr "") /\
     from_done_section_definition (PDict [ ("description", PStr "") ]) 0
     = Ok (dlg, 2)) /\
    dlg.(_title) = PStr "".
Proof.
  eexists. split; [ split; reflexivity | ].
  apply (description_is_title_verbatim [ ("description", PStr "") ] (PStr "") 0 _ 2);
    reflexivity.
Defined.

(** X5. A terminal section that is falsy, whatever its type (null, false,
    zero, the empty string, the empty sequence, the empty mapping), builds
    the default dialog; one that is a truthy number or boolean makes
    construction raise [TypeError], at the membership test. *)
Theorem terminal_section_of_other_types d n :
  (Py.truthy d = false ->
   exists dlg,
     from_done_section_definition d n = Ok (dlg, S (S n)) /\
     dlg.(_title) = PStr "Run wizard?" /\
     dlg.(_buttons) = default_buttons n) /\
  (truthy_scalar d -> from_done_section_definition d n = Raise TypeError).
Proof.
  split.
  - intros Hf. rewrite (from_done_falsy d n Hf).
    destruct (init_default_buttons None n) as (dlg & Hd & Hb & Ht).
    exists dlg. repeat split; assumption.
  - intros [-> | (z & -> & Hz)]; [ reflexivity | ].
    unfold from_done_section_definition.
    change (Py.truthy (PInt z)) with (negb (Z.eqb z 0)).
    destruct (Z.eqb_spec z 0) as [ E | _ ]; [ contradiction | reflexivity ].
Qed.

Lemma terminal_section_of_other_types_witness :
  (Py.truthy (PStr "") = false /\ truthy_scalar (PInt 7)) /\
  (exists dlg,
     from_done_section_definition (PStr "") 0 = Ok (dlg, 2) /\
     dlg.(_title) = PStr "Run wizard?" /\
     dlg.(_buttons) = default_buttons 0) /\
  from_done_section_definition (PInt 7) 0 = Raise TypeError.
Proof.
  assert (Hs : truthy_scalar (PInt 7)).
  { right. exists 7%Z. split; [ reflexivity | discriminate ]. }
  split; [ split; [ reflexivity | exact Hs ] | ].
  split.
  - apply (proj1 (terminal_section_of_other_types (PStr "") 0)). reflexivity.
  - apply (proj2 (terminal_section_of_other_types (PInt 7) 0)). exact Hs.
Defined.

(** X6. An option that is a mapping without [name] makes construction
    raise [KeyError], provided the options before it build; no dialog is
    returned. *)
Theorem option_without_name_raises_KeyError d pre kvs post n bs m :
  Py.getitem d "options" = Ok (PList (pre ++ PDict kvs :: post)) ->
  Py.lookup "name" kvs = None ->
  for_each create_option_button pre n = Ok (bs, m) ->
  from_done_section_definition d n = Raise KeyError.
Proof.
  intros Hopts Hname Hpre.
  destruct (from_done_options d _ n Hopts) as (title & ->).
  unfold bind.
  rewrite (for_each_Raise_at create_option_button pre (PDict kvs) post n bs m
             KeyError Hpre).
  - reflexivity.
  - simpl. unfold bind, lift. rewrite Hname. reflexivity.
Qed.

Lemma option_without_name_raises_KeyError_witness :
  (Py.getitem (PDict [ ("options", PList [ PStr "yes"; option_without_name ]) ])
     "options"
   = Ok (PList ([ PStr "yes" ] ++ PDict [ ("description", PStr "x") ] :: [])) /\
   Py.lookup "name" [ ("description", PStr "x") ] = None /\
   for_each create_option_button [ PStr "yes" ] 0
   = Ok ([ {| text := PStr "Yes"; handler := yes_handler; window := 0;
              always_hide_cursor := true |} ], 1)) /\
  from_done_section_definition
    (PDict [ ("options", PList [ PStr "yes"; option_without_name ]) ]) 0
  = Raise KeyError.
Proof.
  split; [ split; [ reflexivity | split; reflexivity ] | ].
  apply (option_without_name_raises_KeyError
           (PDict [ ("options", PList [ PStr "yes"; option_without_name ]) ])
           [ PStr "yes" ] [ ("description", PStr "x") ] [] 0
           [ {| text := PStr "Yes"; handler := yes_handler; window := 0;
                always_hide_cursor := true |} ] 1);
    reflexivity.
Defined.

End MoreDialogFacts.

(** *** The container of the dialog *)

Lemma flat_map_visible_Widget {W : Type} (holds : Filter -> bool) (ws : list W) :
  flat_map (visible_widgets holds) (map Widget ws) = ws.
Proof.
  induction ws as [ | w ws IH ]; [ reflexivity | ].
  simpl. rewrite IH. reflexivity.
Qed.

(** The container of a dialog is built from its own title and buttons. *)
Lemma init_container title buttons n dlg n' :
  RunWizardDialog.__init__ title buttons n = Ok (dlg, n') ->
  exists kb,
    RunWizardDialog._create_buttons_key_bindings dlg.(RunWizardDialog._buttons)
    = Ok kb /\
    dlg.(RunWizardDialog.container)
    = ConditionalContainer
        (Box (Shadow (Frame dlg.(RunWizardDialog._title)
                        (Box (VSplit (map Widget dlg.(RunWizardDialog._buttons))
                                     (Some kb))))))
        Condition_is_visible.
Proof.
  destruct buttons as [ bs | ].
  - destruct bs as [ | b0 rest ]; [ rewrite init_with_no_buttons; discriminate | ].
    intros H. unfold RunWizardDialog.__init__, bind, ret, lift in H. simpl in H.
    injection H as <- <-. eexists. split; reflexivity.
  - intros H. unfold RunWizardDialog.__init__, bind, ret, lift in H. simpl in H.
    injection H as <- <-. eexists. split; reflexivity.
Qed.

Section DialogOnScreen.

Variable Traverser : Type.
Variable has_no_remaining_prompts : Traverser -> bool.
Variable details_visible_now : Application Traverser -> bool.
Variable prompt_has_details_now : Application Traverser -> bool.

(** X7. What a dialog puts on screen: its frame carries the title of the
    dialog and lays out exactly the buttons of the dialog, in their order,
    under the key bindings made from those buttons; on a frame where the
    traverser reports that no prompts remain all the buttons are displayed,
    and on any other frame none of them is. *)
Theorem dialog_on_screen title buttons n dlg n' app :
  RunWizardDialog.__init__ title buttons n = Ok (dlg, n') ->
  visible_widgets
    (fun f => eval_filter has_no_remaining_prompts details_visible_now
                prompt_has_details_now f app)
    dlg.(RunWizardDialog.container)
  = (if has_no_remaining_prompts app.(traverser)
     then dlg.(RunWizardDialog._buttons) else []) /\
  exists kb,
    RunWizardDialog._create_buttons_key_bindings dlg.(RunWizardDialog._buttons)
    = Ok kb /\
    dlg.(RunWizardDialog.container)
    = ConditionalContainer
        (Box (Shadow (Frame dlg.(RunWizardDialog._title)
                        (Box (VSplit (map Widget dlg.(RunWizardDialog._buttons))
                                     (Some kb))))))
        Condition_is_visible.
Proof.
  intros H. destruct (init_container _ _ _ _ _ H) as (kb & Hkb & Hc).
  split; [ | exists kb; split; assumption ].
  rewrite Hc. simpl. unfold RunWizardDialog_is_visible.
  destruct (has_no_remaining_prompts (traverser app)); [ | reflexivity ].
  apply flat_map_visible_Widget.
Qed.

End DialogOnScreen.

Lemma dialog_on_screen_witness :
  exists dlg,
    RunWizardDialog.__init__ None None 0 = Ok (dlg, 2) /\
    visible_widgets
      (fun f => eval_filter example_has_no_remaining_prompts example_condition
                  example_condition f
                  (run_handler example_move_to_previous_prompt back_handler
                     (example_app 1)))
      dlg.(RunWizardDialog.container)
    = (if example_has_no_remaining_prompts
            (run_handler example_move_to_previous_prompt back_handler
               (example_app 1)).(traverser)
       then dlg.(RunWizardDialog._buttons) else []).
Proof.
  eexists. split; [ reflexivity | ].
  apply (dialog_on_screen bool example_has_no_remaining_prompts
           example_condition example_condition None None 0 _ 2).
  reflexivity.
Defined.

(** *** The tab of the terminal section and the columns *)

Section MoreLayoutFacts.

Import WizardLayoutFactory.

Variable DONE_SECTION_NAME : string.

(** X8. The definition that the tab of the terminal section is built
    from always contains "shortname": whenever [_create_done_section_tab]
    returns a tab, the tab is named after the terminal section and the
    definition handed to it is the definition given, which then contains
    "shortname", or [{"shortname": "Done"}].  And on a definition that is
    a truthy number or boolean the membership test raises [TypeError]
    before any tab is made. *)
Theorem done_section_tab_has_shortname d :
  (forall tab,
      _create_done_section_tab DONE_SECTION_NAME d = Ok tab ->
      tab.(tab_name) = DONE_SECTION_NAME /\
      Py.contains "shortname" tab.(tab_definition) = Ok true /\
      (tab.(tab_definition) = d \/
       tab.(tab_definition) = PDict [ ("shortname", PStr "Done") ])) /\
  (truthy_scalar d ->
   _create_done_section_tab DONE_SECTION_NAME d = Raise TypeError).
Proof.
  pose proof (_create_done_section_tab_cases DONE_SECTION_NAME d) as Hcases.
  split.
  - intros tab Htab. rewrite Htab in Hcases. exact Hcases.
  - intros [-> | (z & -> & Hz)]; [ reflexivity | ].
    unfold _create_done_section_tab.
    change (Py.truthy (PInt z)) with (negb (Z.eqb z 0)).
    destruct (Z.eqb_spec z 0) as [ E | _ ]; [ contradiction | reflexivity ].
Qed.

(** The shape of what [_create_sections] returns. *)
Lemma _create_sections_shape definition sections dlg c :
  Py.getitem definition "plan" = Ok (PDict sections) ->
  _create_sections DONE_SECTION_NAME definition dlg = Ok c ->
  exists tabs,
    Forall2 (tab_for DONE_SECTION_NAME) sections tabs /\
    c = VSplit
          [ HSplit (map Widget (map SectionTab tabs ++ [Spacer])%list);
            HSplit (map Widget
                      (map (body_for DONE_SECTION_NAME dlg) sections ++
                         [WizardDetailsPanel_new; DetailPanelToolbarView_new])%list) ]
          None.
Proof.
  intros Hplan H. unfold _create_sections in H. rewrite Hplan in H. simpl in H.
  destruct (sections_loop DONE_SECTION_NAME dlg sections [] [])
    as [ [tabs1 bodies1] | e ] eqn:El; [ | discriminate ].
  simpl in H. injection H as <-.
  apply sections_loop_Ok in El. destruct El as (tabs & Hall & -> & ->).
  exists tabs. split; [ exact Hall | reflexivity ].
Qed.

Lemma filter_is_dialog_bodies dlg sections :
  List.filter is_dialog (map (body_for DONE_SECTION_NAME dlg) sections)
  = map (fun _ => Dialog dlg)
        (List.filter (fun section => String.eqb (fst section) DONE_SECTION_NAME)
                     sections).
Proof.
  induction sections as [ | section sections IH ]; [ reflexivity | ].
  cbn [map List.filter]. rewrite IH. unfold body_for.
  destruct (String.eqb (fst section) DONE_SECTION_NAME); reflexivity.
Qed.

Lemma filter_key_once (k : string) (l : list (string * pyval)) :
  NoDup (map fst l) -> In k (map fst l) ->
  length (List.filter (fun kv => String.eqb (fst kv) k) l) = 1.
Proof.
  induction l as [ | [k' v] l IH ]; intros Hnd Hin; [ destruct Hin | ].
  simpl in *. inversion Hnd as [ | ? ? Hnotin Hnd' ]; subst.
  destruct (String.eqb_spec k' k) as [ -> | Hne ].
  - simpl. f_equal.
    assert (Hnone : forall l', ~ In k (map fst l') ->
              List.filter (fun kv : string * pyval => String.eqb (fst kv) k) l' = []).
    { induction l' as [ | [k2 v2] l' IH' ]; intros Hn; [ reflexivity | ].
      simpl in *. destruct (String.eqb_spec k2 k) as [ -> | _ ].
      - exfalso. apply Hn. left. reflexivity.
      - apply IH'. intros Hc. apply Hn. right. exact Hc. }
    rewrite Hnone by exact Hnotin. reflexivity.
  - apply IH; [ exact Hnd' | ].
    destruct Hin as [ E | Hin ]; [ contradiction | exact Hin ].
Qed.

(** X9. In a plan that names every section once and has the terminal
    section, the second column that [_create_sections] builds holds the
    dialog exactly once, and it is the dialog that was passed in; the body
    at the position of the terminal section is that dialog, wherever the
    terminal section stands in the plan. *)
Theorem terminal_section_is_rendered_once definition sections dlg c :
  Py.getitem definition "plan" = Ok (PDict sections) ->
  NoDup (map fst sections) ->
  In DONE_SECTION_NAME (map fst sections) ->
  _create_sections DONE_SECTION_NAME definition dlg = Ok c ->
  exists tabs bodies,
    c = VSplit [ HSplit tabs; HSplit (map Widget bodies) ] None /\
    List.filter is_dialog bodies = [ Dialog dlg ] /\
    forall i section_definition,
      nth_error sections i = Some (DONE_SECTION_NAME, section_definition) ->
      nth_error bodies i = Some (Dialog dlg).
Proof.
  intros Hplan Hnd Hin H.
  destruct (_create_sections_shape _ _ _ _ Hplan H) as (tabs & _ & ->).
  eexists. eexists. split; [ reflexivity | split ].
  - rewrite filter_app. simpl. rewrite app_nil_r, filter_is_dialog_bodies.
    pose proof (filter_key_once DONE_SECTION_NAME sections Hnd Hin) as Hlen.
    destruct (List.filter (fun section => String.eqb (fst section) DONE_SECTION_NAME)
                          sections) as [ | s1 [ | s2 l ] ];
      simpl in Hlen; try discriminate.
    reflexivity.
  - intros i def Hi.
    rewrite nth_error_app1
      by (rewrite length_map; apply nth_error_Some; rewrite Hi; discriminate).
    rewrite nth_error_map, Hi. simpl. unfold body_for. simpl.
    rewrite String.eqb_refl. reflexivity.
Qed.

End MoreLayoutFacts.

Lemma terminal_section_is_rendered_once_witness :
  exists c,
    (Py.getitem
       (PDict [ ("plan", PDict [ ("__DONE__", PNone); ("net", PNone) ]) ]) "plan"
     = Ok (PDict [ ("__DONE__", PNone); ("net", PNone) ]) /\
     NoDup (map fst [ ("__DONE__", PNone); ("net", PNone) ]) /\
     In "__DONE__" (map fst [ ("__DONE__", PNone); ("net", PNone) ]) /\
     WizardLayoutFactory._create_sections "__DONE__"
       (PDict [ ("plan", PDict [ ("__DONE__", PNone); ("net", PNone) ]) ])
       dialog_by_default = Ok c) /\
    exists tabs bodies,
      c = VSplit [ HSplit tabs; HSplit (map Widget bodies) ] None /\
      List.filter is_dialog bodies = [ Dialog dialog_by_default ] /\
      forall i section_definition,
        nth_error [ ("__DONE__", PNone); ("net", PNone) ] i
        = Some ("__DONE__", section_definition) ->
        nth_error bodies i = Some (Dialog dialog_by_default).
Proof.
  assert (Hnd : NoDup (map fst [ ("__DONE__", PNone); ("net", PNone) ])).
  { simpl. constructor.
    - simpl. intros [ H | [] ]. discriminate H.
    - constructor; [ intros [] | constructor ]. }
  assert (Hin : In "__DONE__" (map fst [ ("__DONE__", PNone); ("net", PNone) ]))
    by (left; reflexivity).
  eexists. split.
  - split; [ reflexivity | split; [ exact Hnd | split; [ exact Hin | reflexivity ] ] ].
  - apply (terminal_section_is_rendered_once "__DONE__"
             (PDict [ ("plan", PDict [ ("__DONE__", PNone); ("net", PNone) ]) ])
             [ ("__DONE__", PNone); ("net", PNone) ] dialog_by_default _
             eq_refl Hnd Hin eq_refl).
Defined.

(** *** The whole layout *)

Section WholeLayoutFacts.

Import WizardLayoutFactory.

Variable DONE_SECTION_NAME : string.

(** X10. The dialog is threaded through the layout, not rebuilt: when
    [create_wizard_layout] succeeds, the dialog that the returned layout
    exposes is the one built from the terminal section of the plan, every
    body that stands for the terminal section is that same dialog, and the
    title label carries the title of the definition. *)
Theorem layout_threads_the_dialog definition n layout n' :
  create_wizard_layout DONE_SECTION_NAME definition n = Ok (layout, n') ->
  exists sections done_section title tabs,
    Py.getitem definition "plan" = Ok (PDict sections) /\
    Py.lookup DONE_SECTION_NAME sections = Some done_section /\
    Py.getitem definition "title" = Ok title /\
    (exists k,
        RunWizardDialog.from_done_section_definition done_section n
        = Ok (layout.(run_wizard_dialog), k)) /\
    Forall2 (tab_for DONE_SECTION_NAME) sections tabs /\
    layout.(layout_container)
    = HSplit
        [ Widget (TitleLabel title);
          VSplit
            [ HSplit (map Widget (map SectionTab tabs ++ [Spacer])%list);
              HSplit (map Widget
                        (map (body_for DONE_SECTION_NAME layout.(run_wizard_dialog))
                             sections ++
                           [WizardDetailsPanel_new; DetailPanelToolbarView_new])%list) ]
            None;
          Widget HorizontalLine ].
Proof.
  unfold create_wizard_layout, _create_run_wizard_dialog. intros H.
  apply bind_Ok in H. destruct H as (dlg & m & Hdlg & H).
  apply bind_Ok in Hdlg. destruct Hdlg as (plan & m1 & Hplan & Hdlg).
  apply lift_Ok in Hplan. destruct Hplan as [Hplan ->].
  apply bind_Ok in Hdlg. destruct Hdlg as (done & m2 & Hdone & Hdlg).
  apply lift_Ok in Hdone. destruct Hdone as [Hdone ->].
  apply getitem_Ok_mapping in Hdone.
  destruct Hdone as (sections & -> & _ & Hlookup).
  apply bind_Ok in H. destruct H as (title & m3 & Htitle & H).
  apply lift_Ok in Htitle. destruct Htitle as [Htitle ->].
  apply bind_Ok in H. destruct H as (c & m4 & Hc & H).
  apply lift_Ok in Hc. destruct Hc as [Hc ->].
  apply ret_Ok in H. destruct H as [-> ->].
  unfold _create_title in Htitle.
  destruct (Py.getitem definition "title") as [ t | e ] eqn:Et; [ | discriminate ].
  simpl in Htitle. injection Htitle as <-.
  destruct (_create_sections_shape DONE_SECTION_NAME definition sections dlg c
              Hplan Hc) as (tabs & Hall & ->).
  exists sections, done, t, tabs. simpl.
  split; [ exact Hplan | split; [ exact Hlookup | split; [ reflexivity | ] ] ].
  split; [ exists m; exact Hdlg | split; [ exact Hall | reflexivity ] ].
Qed.

(** X11. [create_wizard_layout] on a definition that misses a required
    key: without [plan] it raises [KeyError]; with a [plan] that is not a
    mapping it raises [TypeError] (the subscript of the terminal section is
    evaluated before anything asks the plan for its items); with a plan
    that has no terminal section it raises [KeyError]; and without [title]
    it raises [KeyError] even though the dialog could be built. *)
Theorem layout_missing_keys kvs n :
  (Py.lookup "plan" kvs = None ->
   create_wizard_layout DONE_SECTION_NAME (PDict kvs) n = Raise KeyError) /\
  (forall plan,
      Py.lookup "plan" kvs = Some plan ->
      (forall sections, plan <> PDict sections) ->
      create_wizard_layout DONE_SECTION_NAME (PDict kvs) n = Raise TypeError) /\
  (forall sections,
      Py.lookup "plan" kvs = Some (PDict sections) ->
      Py.lookup DONE_SECTION_NAME sections = None ->
      create_wizard_layout DONE_SECTION_NAME (PDict kvs) n = Raise KeyError) /\
  (forall sections done_section dlg n',
      Py.lookup "plan" kvs = Some (PDict sections) ->
      Py.lookup DONE_SECTION_NAME sections = Some done_section ->
      RunWizardDialog.from_done_section_definition done_section n = Ok (dlg, n') ->
      Py.lookup "title" kvs = None ->
      create_wizard_layout DONE_SECTION_NAME (PDict kvs) n = Raise KeyError).
Proof.
  unfold create_wizard_layout, _create_run_wizard_dialog, _create_title.
  split; [ | split; [ | split ] ].
  - intros H. unfold bind, lift. simpl. rewrite H. reflexivity.
  - intros plan H Hnot. unfold bind, lift. simpl. rewrite H.
    destruct plan; try reflexivity. exfalso. eapply Hnot. reflexivity.
  - intros sections H Hdone. unfold bind, lift. simpl. rewrite H.
    simpl. rewrite Hdone. reflexivity.
  - intros sections done dlg n' H Hdone Hdlg Htitle.
    unfold bind, lift. simpl. rewrite H. simpl. rewrite Hdone, Hdlg.
    simpl. rewrite Htitle. reflexivity.
Qed.

End WholeLayoutFacts.

Lemma layout_threads_the_dialog_witness :
  exists layout,
    WizardLayoutFactory.create_wizard_layout "__DONE__"
      (plan_net_done "__DONE__" section_finish) 0 = Ok (layout, 2) /\
    exists sections done_section title tabs,
      Py.getitem (plan_net_done "__DONE__" section_finish) "plan"
      = Ok (PDict sections) /\
      Py.lookup "__DONE__" sections = Some done_section /\
      Py.getitem (plan_net_done "__DONE__" section_finish) "title" = Ok title /\
      (exists k,
          RunWizardDialog.from_done_section_definition done_section 0
          = Ok (layout.(run_wizard_dialog), k)) /\
      Forall2 (tab_for "__DONE__") sections tabs /\
      layout.(layout_container)
      = HSplit
          [ Widget (TitleLabel title);
            VSplit
              [ HSplit (map Widget (map SectionTab tabs ++ [Spacer])%list);
                HSplit (map Widget
                          (map (body_for "__DONE__" layout.(run_wizard_dialog))
                               sections ++
                             [WizardDetailsPanel_new; DetailPanelToolbarView_new])%list) ]
              None;
            Widget HorizontalLine ].
Proof.
  eexists. split; [ reflexivity | ].
  apply (layout_threads_the_dialog "__DONE__"
           (plan_net_done "__DONE__" section_finish) 0 _ 2).
  reflexivity.
Defined.

Lemma layout_missing_keys_witness :
  (Py.lookup "plan" [ ("title", PStr "Setup") ] = None /\
   Py.lookup "plan" [ ("plan", PList []) ] = Some (PList []) /\
   (forall sections, PList [] <> PDict sections) /\
   Py.lookup "plan" [ ("plan", PDict [ ("net", PNone) ]) ]
   = Some (PDict [ ("net", PNone) ]) /\
   Py.lookup "__DONE__" [ ("net", PNone) ] = None) /\
  WizardLayoutFactory.create_wizard_layout "__DONE__"
    (PDict [ ("title", PStr "Setup") ]) 0 = Raise KeyError /\
  WizardLayoutFactory.create_wizard_layout "__DONE__"
    (PDict [ ("plan", PList []) ]) 0 = Raise TypeError /\
  WizardLayoutFactory.create_wizard_layout "__DONE__"
    (PDict [ ("plan", PDict [ ("net", PNone) ]) ]) 0 = Raise KeyError /\
  WizardLayoutFactory.create_wizard_layout "__DONE__"
    (PDict [ ("plan", PDict [ ("__DONE__", PNone) ]) ]) 0 = Raise KeyError.
Proof.
  assert (Hnot : forall sections, PList [] <> PDict sections)
    by (intros sections; discriminate).
  split; [ repeat split; try reflexivity; exact Hnot | ].
  split; [ | split; [ | split ] ].
  - apply (proj1 (layout_missing_keys "__DONE__" [ ("title", PStr "Setup") ] 0)).
    reflexivity.
  - apply (proj1 (proj2 (layout_missing_keys "__DONE__" [ ("plan", PList []) ] 0))
             (PList []) eq_refl Hnot).
  - apply (proj1 (proj2 (proj2 (layout_missing_keys "__DONE__"
                                  [ ("plan", PDict [ ("net", PNone) ]) ] 0)))
             [ ("net", PNone) ] eq_refl eq_refl).
  - apply (proj2 (proj2 (proj2 (layout_missing_keys "__DONE__"
                                  [ ("plan", PDict [ ("__DONE__", PNone) ]) ] 0)))
             [ ("__DONE__", PNone) ] PNone dialog_by_default 2
             eq_refl eq_refl eq_refl eq_refl).
Defined.

(** *** Moving the focus with the keys of the dialog *)

Lemma focus_focus {Traverser : Type} (app : Application Traverser) w1 w2 :
  focus w2 (focus w1 app) = focus w2 app.
Proof. reflexivity. Qed.

Lemma focus_current {Traverser : Type} (app : Application Traverser) :
  focus app.(current_window) app = app.
Proof. destruct app. reflexivity. Qed.

(** Both focus functions only move the focus, and only to a window of the
    ring. *)
Lemma Layout_focus_next_moves {Traverser : Type} (app : Application Traverser) :
  exists w,
    Layout_focus_next app = focus w app /\
    (w = app.(current_window) \/ In w app.(visible_focusable_windows)).
Proof.
  unfold Layout_focus_next.
  destruct (visible_focusable_windows app) as [ | x ws ] eqn:E.
  - exists (current_window app). rewrite focus_current. split; [ reflexivity | left; reflexivity ].
  - eexists. split; [ reflexivity | right ].
    apply nth_In.
    destruct (index_of (current_window app) (x :: ws));
      [ apply Nat.mod_upper_bound; discriminate | simpl; lia ].
Qed.

Lemma Layout_focus_previous_moves {Traverser : Type} (app : Application Traverser) :
  exists w,
    Layout_focus_previous app = focus w app /\
    (w = app.(current_window) \/ In w app.(visible_focusable_windows)).
Proof.
  unfold Layout_focus_previous.
  destruct (visible_focusable_windows app) as [ | x ws ] eqn:E.
  - exists (current_window app). rewrite focus_current. split; [ reflexivity | left; reflexivity ].
  - eexists. split; [ reflexivity | right ].
    apply nth_In.
    destruct (index_of (current_window app) (x :: ws));
      [ apply Nat.mod_upper_bound; discriminate | simpl; lia ].
Qed.

Section MoreFocusFacts.

Variable Traverser : Type.
Variable has_no_remaining_prompts : Traverser -> bool.
Variable details_visible_now : Application Traverser -> bool.
Variable prompt_has_details_now : Application Traverser -> bool.

Local Abbreviation press_key :=
  (press has_no_remaining_prompts details_visible_now prompt_has_details_now).

(** One step around the ring and back. *)
Lemma step_back_index i K :
  i < K -> ((i + 1) mod K + K - 1) mod K = i.
Proof.
  intros Hi. destruct (Nat.eq_dec (i + 1) K) as [ E | Hne ].
  - rewrite E, Nat.Div0.mod_same. rewrite Nat.mod_small by lia. lia.
  - rewrite (Nat.mod_small (i + 1)) by lia.
    replace (i + 1 + K - 1) with (i + 1 * K) by lia.
    rewrite Nat.Div0.mod_add. apply Nat.mod_small. exact Hi.
Qed.

Lemma step_forth_index i K :
  i < K -> ((i + K - 1) mod K + 1) mod K = i.
Proof.
  intros Hi. destruct i as [ | i ].
  - rewrite (Nat.mod_small (0 + K - 1)) by lia.
    replace (0 + K - 1 + 1) with K by lia. rewrite Nat.Div0.mod_same. reflexivity.
  - replace (S i + K - 1) with (i + 1 * K) by lia.
    rewrite Nat.Div0.mod_add, (Nat.mod_small i) by lia.
    rewrite Nat.mod_small by lia. lia.
Qed.

(** While the focus is on a button, the bindings of the buttons are
    consulted. *)
Lemma press_within_on_button windows kb k (app : Application Traverser) i :
  i < length windows ->
  app.(current_window) = nth i windows 0 ->
  press_within has_no_remaining_prompts details_visible_now
    prompt_has_details_now windows kb k app
  = press_key kb k app.
Proof.
  intros Hi Hcur. unfold press_within.
  replace (existsb (Nat.eqb (current_window app)) windows) with true;
    [ reflexivity | ].
  symmetry. apply existsb_exists. exists (nth i windows 0).
  split; [ apply nth_In; exact Hi | ].
  rewrite Hcur. apply Nat.eqb_refl.
Qed.

(** X14. When the distinct buttons of the dialog are the visible
    focusable windows and the focus is on one of them, Tab followed by
    Shift-Tab, and Shift-Tab followed by Tab, give back the state of the
    application exactly as it was; both keys are handled by the bindings
    of the dialog, which see a key only while a button has the focus. *)
Theorem tab_and_backtab_are_inverse first rest kb (app : Application Traverser) i :
  RunWizardDialog._create_buttons_key_bindings (first :: rest) = Ok kb ->
  NoDup (map window (first :: rest)) ->
  app.(visible_focusable_windows) = map window (first :: rest) ->
  i < length (first :: rest) ->
  app.(current_window) = nth i (map window (first :: rest)) 0 ->
  press_within has_no_remaining_prompts details_visible_now
    prompt_has_details_now (map window (first :: rest)) kb BackTab
    (press_within has_no_remaining_prompts details_visible_now
       prompt_has_details_now (map window (first :: rest)) kb Tab app)
  = app /\
  press_within has_no_remaining_prompts details_visible_now
    prompt_has_details_now (map window (first :: rest)) kb Tab
    (press_within has_no_remaining_prompts details_visible_now
       prompt_has_details_now (map window (first :: rest)) kb BackTab app)
  = app.
Proof.
  intros Hkb Hnd0 Hring0 Hi0 Hcur0.
  set (ring := map window (first :: rest)) in *.
  assert (Hlen : length ring = length (first :: rest)) by apply length_map.
  assert (Hnd : NoDup app.(visible_focusable_windows)) by (rewrite Hring0; exact Hnd0).
  assert (Hi : i < length app.(visible_focusable_windows))
    by (rewrite Hring0, Hlen; exact Hi0).
  assert (Hcur : app.(current_window) = nth i app.(visible_focusable_windows) 0)
    by (rewrite Hring0; exact Hcur0).
  assert (HT : forall a, press_key kb Tab a = Layout_focus_next a)
    by (intros a;
        apply (press_buttons_key_bindings Traverser has_no_remaining_prompts
                 details_visible_now prompt_has_details_now first rest kb a Hkb)).
  assert (HB : forall a, press_key kb BackTab a = Layout_focus_previous a)
    by (intros a;
        apply (press_buttons_key_bindings Traverser has_no_remaining_prompts
                 details_visible_now prompt_has_details_now first rest kb a Hkb)).
  set (K := length app.(visible_focusable_windows)) in *.
  assert (HK : K <> 0) by lia.
  assert (HKring : length ring = K) by (unfold K; rewrite Hring0; reflexivity).
  split.
  - rewrite (press_within_on_button ring kb Tab app i) by (rewrite ?Hlen; assumption).
    rewrite HT.
    destruct (Layout_focus_next_moves app) as (w & Hnext & _).
    pose proof (focus_next_from app i 0 Hnd Hi Hcur) as Hc1. fold K in Hc1.
    assert (Hring : (Layout_focus_next app).(visible_focusable_windows)
                    = app.(visible_focusable_windows))
      by (rewrite Hnext; reflexivity).
    rewrite (press_within_on_button ring kb BackTab (Layout_focus_next app)
               ((i + 1) mod K))
      by (first [ rewrite HKring; apply Nat.mod_upper_bound; exact HK
                | rewrite Hc1, Hring0; reflexivity ]).
    rewrite HB.
    destruct (Layout_focus_previous_moves (Layout_focus_next app))
      as (w' & Hprev & _).
    pose proof (focus_previous_from (Layout_focus_next app) ((i + 1) mod K) 0) as Hc2.
    rewrite Hring in Hc2. fold K in Hc2.
    specialize (Hc2 Hnd (Nat.mod_upper_bound _ K HK) Hc1).
    rewrite (step_back_index i K Hi), <- Hcur in Hc2.
    rewrite Hprev in Hc2 |- *. rewrite Hnext in *.
    rewrite focus_focus in *. cbn [current_window focus] in Hc2. subst w'.
    apply focus_current.
  - rewrite (press_within_on_button ring kb BackTab app i) by (rewrite ?Hlen; assumption).
    rewrite HB.
    destruct (Layout_focus_previous_moves app) as (w & Hprev & _).
    pose proof (focus_previous_from app i 0 Hnd Hi Hcur) as Hc1. fold K in Hc1.
    assert (Hring : (Layout_focus_previous app).(visible_focusable_windows)
                    = app.(visible_focusable_windows))
      by (rewrite Hprev; reflexivity).
    rewrite (press_within_on_button ring kb Tab (Layout_focus_previous app)
               ((i + K - 1) mod K))
      by (first [ rewrite HKring; apply Nat.mod_upper_bound; exact HK
                | rewrite Hc1, Hring0; reflexivity ]).
    rewrite HT.
    destruct (Layout_focus_next_moves (Layout_focus_previous app))
      as (w' & Hnext & _).
    pose proof (focus_next_from (Layout_focus_previous app)
                  ((i + K - 1) mod K) 0) as Hc2.
    rewrite Hring in Hc2. fold K in Hc2.
    specialize (Hc2 Hnd (Nat.mod_upper_bound _ K HK) Hc1).
    rewrite (step_forth_index i K Hi), <- Hcur in Hc2.
    rewrite Hnext in Hc2 |- *. rewrite Hprev in *.
    rewrite focus_focus in *. cbn [current_window focus] in Hc2. subst w'.
    apply focus_current.
Qed.

(** X15. Tab goes round the buttons: when the [K] distinct buttons of the
    dialog are the visible focusable windows and the focus is on the
    [i]-th, [j] presses of Tab, each handled by the bindings of the dialog
    with the focus on a button, put the focus on the button at position
    [(i + j) mod K]; so every button is reached in fewer than [K] presses,
    and [K] presses lead back to the start. *)
Theorem tab_goes_round_the_ring first rest kb (app : Application Traverser) i :
  RunWizardDialog._create_buttons_key_bindings (first :: rest) = Ok kb ->
  NoDup (map window (first :: rest)) ->
  app.(visible_focusable_windows) = map window (first :: rest) ->
  i < length (first :: rest) ->
  app.(current_window) = nth i (map window (first :: rest)) 0 ->
  (forall j,
      (Nat.iter j
         (press_within has_no_remaining_prompts details_visible_now
            prompt_has_details_now (map window (first :: rest)) kb Tab)
         app).(current_window)
      = nth ((i + j) mod length (first :: rest)) (map window (first :: rest)) 0) /\
  (forall t, t < length (first :: rest) ->
      exists j, j < length (first :: rest) /\
        (Nat.iter j
           (press_within has_no_remaining_prompts details_visible_now
              prompt_has_details_now (map window (first :: rest)) kb Tab)
           app).(current_window)
        = nth t (map window (first :: rest)) 0) /\
  Nat.iter (length (first :: rest))
    (press_within has_no_remaining_prompts details_visible_now
       prompt_has_details_now (map window (first :: rest)) kb Tab)
    app
  = app.
Proof.
  intros Hkb Hnd Hring Hi Hcur.
  assert (HT : forall a, press_key kb Tab a = Layout_focus_next a)
    by (intros a;
        apply (press_buttons_key_bindings Traverser has_no_remaining_prompts
                 details_visible_now prompt_has_details_now first rest kb a Hkb)).
  set (ring := map window (first :: rest)) in *.
  assert (Hlen : length ring = length (first :: rest)) by apply length_map.
  set (K := length (first :: rest)) in *.
  assert (HK : K <> 0) by (unfold K; simpl; discriminate).
  assert (Hiter : forall j,
             exists w,
               Nat.iter j
                 (press_within has_no_remaining_prompts details_visible_now
                    prompt_has_details_now ring kb Tab) app
               = focus w app /\
               w = nth ((i + j) mod K) ring 0).
  { induction j as [ | j (w & Hj & Hw) ].
    - exists (current_window app).
      split; [ change (app = focus (current_window app) app);
               symmetry; apply focus_current | ].
      rewrite Nat.add_0_r, Nat.mod_small by exact Hi. exact Hcur.
    - rewrite Nat.iter_succ, Hj.
      rewrite (press_within_on_button ring kb Tab (focus w app) ((i + j) mod K))
        by (first [ rewrite Hlen; apply Nat.mod_upper_bound; exact HK
                  | exact Hw ]).
      rewrite HT.
      destruct (Layout_focus_next_moves (focus w app)) as (w' & Hnext & _).
      rewrite Hnext, focus_focus. exists w'. split; [ reflexivity | ].
      pose proof (focus_next_from (focus w app) ((i + j) mod K) 0) as Hc.
      cbn [visible_focusable_windows current_window focus] in Hc.
      rewrite Hring in Hc. rewrite Hlen in Hc.
      specialize (Hc Hnd (Nat.mod_upper_bound _ K HK) Hw).
      rewrite Hnext in Hc. cbn [current_window focus] in Hc.
      rewrite Hc. rewrite Nat.Div0.add_mod_idemp_l. f_equal. f_equal. lia. }
  split; [ | split ].
  - intros j. destruct (Hiter j) as (w & -> & ->). reflexivity.
  - intros t Ht. exists ((t + K - i) mod K).
    split; [ apply Nat.mod_upper_bound; exact HK | ].
    destruct (Hiter ((t + K - i) mod K)) as (w & -> & ->).
    cbn [current_window focus]. f_equal.
    rewrite Nat.Div0.add_mod_idemp_r.
    replace (i + (t + K - i)) with (t + 1 * K) by lia.
    rewrite Nat.Div0.mod_add. apply Nat.mod_small. exact Ht.
  - destruct (Hiter K) as (w & -> & ->).
    replace (i + K) with (i + 1 * K) by lia.
    rewrite Nat.Div0.mod_add, Nat.mod_small by exact Hi.
    rewrite <- Hcur. apply focus_current.
Qed.

(** X16. The title of the details panel is never empty: it is the title
    of the application when that is set to a non-empty string, and
    "Details panel" when it is unset or empty. *)
Theorem details_panel_title_is_never_empty (app : Application Traverser) :
  WizardDetailsPanel_get_title app <> "" /\
  (forall s, app.(details_title) = Some s -> s <> "" ->
             WizardDetailsPanel_get_title app = s) /\
  (app.(details_title) = None \/ app.(details_title) = Some "" ->
   WizardDetailsPanel_get_title app = "Details panel").
Proof.
  unfold WizardDetailsPanel_get_title, Py.getattr_default, Py.or_str.
  destruct (details_title app) as [ s | ].
  - destruct (String.eqb_spec s "") as [ -> | Hne ].
    + split; [ discriminate | split ].
      * intros s Hs Hn. injection Hs as <-. congruence.
      * intros _. reflexivity.
    + split; [ exact Hne | split ].
      * intros s' Hs _. injection Hs as <-. reflexivity.
      * intros [ H | H ]; [ discriminate | injection H as ->; congruence ].
  - split; [ discriminate | split ].
    + intros s Hs. discriminate.
    + intros _. reflexivity.
Qed.

End MoreFocusFacts.

Lemma NoDup_4_5_6 : NoDup [4; 5; 6].
Proof.
  constructor; [ simpl; intros [ H | [ H | [] ] ]; discriminate H | ].
  constructor; [ simpl; intros [ H | [] ]; discriminate H | ].
  constructor; [ intros [] | constructor ].
Qed.

Lemma tab_and_backtab_are_inverse_witness :
  (RunWizardDialog._create_buttons_key_bindings three_buttons = Ok three_buttons_kb /\
   NoDup (map window three_buttons) /\
   (app_on_ring true 6 [4; 5; 6]).(visible_focusable_windows)
   = map window three_buttons /\
   2 < length three_buttons /\
   (app_on_ring true 6 [4; 5; 6]).(current_window)
   = nth 2 (map window three_buttons) 0) /\
  press_within example_has_no_remaining_prompts example_condition example_condition
    (map window three_buttons) three_buttons_kb BackTab
    (press_within example_has_no_remaining_prompts example_condition
       example_condition (map window three_buttons) three_buttons_kb Tab
       (app_on_ring true 6 [4; 5; 6]))
  = app_on_ring true 6 [4; 5; 6] /\
  press_within example_has_no_remaining_prompts example_condition example_condition
    (map window three_buttons) three_buttons_kb Tab
    (press_within example_has_no_remaining_prompts example_condition
       example_condition (map window three_buttons) three_buttons_kb BackTab
       (app_on_ring true 6 [4; 5; 6]))
  = app_on_ring true 6 [4; 5; 6].
Proof.
  assert (Hlt : 2 < length three_buttons) by (simpl; lia).
  split.
  - split; [ reflexivity | split; [ exact NoDup_4_5_6 | ] ].
    split; [ reflexivity | split; [ exact Hlt | reflexivity ] ].
  - apply (tab_and_backtab_are_inverse bool example_has_no_remaining_prompts
             example_condition example_condition button_at_4 buttons_at_5_6
             three_buttons_kb (app_on_ring true 6 [4; 5; 6]) 2
             eq_refl NoDup_4_5_6 eq_refl Hlt eq_refl).
Defined.

Lemma tab_goes_round_the_ring_witness :
  (RunWizardDialog._create_buttons_key_bindings three_buttons = Ok three_buttons_kb /\
   NoDup (map window three_buttons) /\
   (app_on_ring true 6 [4; 5; 6]).(visible_focusable_windows)
   = map window three_buttons /\
   2 < length three_buttons /\
   (app_on_ring true 6 [4; 5; 6]).(current_window)
   = nth 2 (map window three_buttons) 0) /\
  (Nat.iter 2
     (press_within example_has_no_remaining_prompts example_condition
        example_condition (map window three_buttons) three_buttons_kb Tab)
     (app_on_ring true 6 [4; 5; 6])).(current_window)
  = nth ((2 + 2) mod length three_buttons) (map window three_buttons) 0 /\
  Nat.iter (length three_buttons)
    (press_within example_has_no_remaining_prompts example_condition
       example_condition (map window three_buttons) three_buttons_kb Tab)
    (app_on_ring true 6 [4; 5; 6])
  = app_on_ring true 6 [4; 5; 6].
Proof.
  assert (Hlt : 2 < length three_buttons) by (simpl; lia).
  split.
  - split; [ reflexivity | split; [ exact NoDup_4_5_6 | ] ].
    split; [ reflexivity | split; [ exact Hlt | reflexivity ] ].
  - destruct (tab_goes_round_the_ring bool example_has_no_remaining_prompts
                example_condition example_condition button_at_4 buttons_at_5_6
                three_buttons_kb (app_on_ring true 6 [4; 5; 6]) 2
                eq_refl NoDup_4_5_6 eq_refl Hlt eq_refl)
      as (Hj & _ & HK).
    split; [ exact (Hj 2) | exact HK ].
Defined.

Lemma details_panel_title_is_never_empty_witness :
  (mkApp true (Some "Subnets") 0 [] None).(details_title) = Some "Subnets" /\
  "Subnets" <> "" /\
  WizardDetailsPanel_get_title (mkApp true (Some "Subnets") 0 [] None) = "Subnets".
Proof.
  assert (Hne : "Subnets" <> "") by discriminate.
  split; [ reflexivity | split; [ exact Hne | ] ].
  apply (proj1 (proj2 (details_panel_title_is_never_empty bool
                         (mkApp true (Some "Subnets") 0 [] None)))
           "Subnets" eq_refl Hne).
Defined.

Lemma done_section_tab_has_shortname_witness :
  exists tab,
    (WizardLayoutFactory._create_done_section_tab "__DONE__"
       (PDict [ ("shortname", PStr "Finish"); ("description", PStr "Finish?") ])
     = Ok tab /\
     truthy_scalar (PInt 7)) /\
    (tab.(tab_name) = "__DONE__" /\
     Py.contains "shortname" tab.(tab_definition) = Ok true /\
     (tab.(tab_definition)
      = PDict [ ("shortname", PStr "Finish"); ("description", PStr "Finish?") ] \/
      tab.(tab_definition) = PDict [ ("shortname", PStr "Done") ])) /\
    WizardLayoutFactory._create_done_section_tab "__DONE__" (PInt 7)
    = Raise TypeError.
Proof.
  assert (Hs : truthy_scalar (PInt 7)).
  { right. exists 7%Z. split; [ reflexivity | discriminate ]. }
  eexists. split; [ split; [ reflexivity | exact Hs ] | ].
  split.
  - apply (proj1 (done_section_tab_has_shortname "__DONE__"
                    (PDict [ ("shortname", PStr "Finish");
                             ("description", PStr "Finish?") ]))).
    reflexivity.
  - apply (proj2 (done_section_tab_has_shortname "__DONE__" (PInt 7))). exact Hs.
Defined.

Section DirectionalKeys.

Variable Traverser : Type.
Variable has_no_remaining_prompts : Traverser -> bool.
Variable details_visible_now : Application Traverser -> bool.
Variable prompt_has_details_now : Application Traverser -> bool.

Local Abbreviation press_key :=
  (press has_no_remaining_prompts details_visible_now prompt_has_details_now).

(** X17. The arrow keys move along the buttons without wrapping: when the
    buttons are the visible focusable windows and the focus is on the
    [i]-th of [K] distinct buttons, Right puts it on the button at
    position [min (i + 1) (K - 1)] and Left on the button at position
    [i - 1], which is position 0 for the first button. *)
Theorem arrow_keys_stop_at_the_ends first rest kb (app : Application Traverser) i :
  RunWizardDialog._create_buttons_key_bindings (first :: rest) = Ok kb ->
  NoDup (map window (first :: rest)) ->
  app.(visible_focusable_windows) = map window (first :: rest) ->
  i < length (first :: rest) ->
  app.(current_window) = nth i (map window (first :: rest)) 0 ->
  (press_key kb Right app).(current_window)
  = nth (Nat.min (i + 1) (length (first :: rest) - 1)) (map window (first :: rest)) 0 /\
  (press_key kb Left app).(current_window)
  = nth (i - 1) (map window (first :: rest)) 0.
Proof.
  intros Hkb Hnd Hring Hi Hcur.
  destruct (press_buttons_key_bindings Traverser has_no_remaining_prompts
              details_visible_now prompt_has_details_now first rest kb app Hkb)
    as (HL & HR & _ & _).
  set (buttons := first :: rest) in *.
  assert (Hlen : length (map window buttons) = length buttons) by apply length_map.
  assert (Hlast : (last buttons first).(window)
                  = nth (length buttons - 1) (map window buttons) 0).
  { rewrite <- Hlen.
    rewrite (nth_pred_length_last (map window buttons) 0 first.(window))
      by (unfold buttons; discriminate).
    symmetry. apply last_map_window. }
  split.
  - destruct (Nat.eq_dec i (length buttons - 1)) as [ -> | Hne ].
    + rewrite HR, Hcur, <- Hlast, Nat.eqb_refl, Hcur.
      rewrite Nat.min_r by lia. reflexivity.
    + rewrite Nat.min_l by lia. replace (i + 1) with (S i) by lia.
      apply (focus_keys_inside Traverser has_no_remaining_prompts
               details_visible_now prompt_has_details_now first rest kb app i
               Hkb Hnd Hring); [ fold buttons; lia | exact Hcur ].
  - destruct i as [ | i ].
    + rewrite HL, Hcur. simpl nth. rewrite Nat.eqb_refl. exact Hcur.
    + replace (S i - 1) with i by lia.
      apply (focus_keys_inside Traverser has_no_remaining_prompts
               details_visible_now prompt_has_details_now first rest kb app i
               Hkb Hnd Hring); [ fold buttons; lia | exact Hcur ].
Qed.

End DirectionalKeys.

Lemma arrow_keys_stop_at_the_ends_witness :
  (RunWizardDialog._create_buttons_key_bindings three_buttons = Ok three_buttons_kb /\
   NoDup (map window three_buttons) /\
   (app_on_ring true 6 [4; 5; 6]).(visible_focusable_windows)
   = map window three_buttons /\
   2 < length three_buttons /\
   (app_on_ring true 6 [4; 5; 6]).(current_window)
   = nth 2 (map window three_buttons) 0) /\
  (press example_has_no_remaining_prompts example_condition example_condition
     three_buttons_kb Right (app_on_ring true 6 [4; 5; 6])).(current_window)
  = nth (Nat.min (2 + 1) (length three_buttons - 1)) (map window three_buttons) 0 /\
  (press example_has_no_remaining_prompts example_condition example_condition
     three_buttons_kb Left (app_on_ring true 6 [4; 5; 6])).(current_window)
  = nth (2 - 1) (map window three_buttons) 0.
Proof.
  assert (Hlt : 2 < length three_buttons) by (simpl; lia).
  split.
  - split; [ reflexivity | split; [ exact NoDup_4_5_6 | ] ].
    split; [ reflexivity | split; [ exact Hlt | reflexivity ] ].
  - apply (arrow_keys_stop_at_the_ends bool example_has_no_remaining_prompts
             example_condition example_condition button_at_4 buttons_at_5_6
             three_buttons_kb (app_on_ring true 6 [4; 5; 6]) 2
             eq_refl NoDup_4_5_6 eq_refl Hlt eq_refl).
Defined.
